(** * Linear isotropic elasticity: [dolfinx_materials/jax_materials/elasticity.py]

    A shallow embedding of the two classes of [elasticity.py],
    [LinearElasticIsotropic] and its subclass
    [PlaneStressLinearElasticIsotropic], together with the properties of
    their constructor and of their methods.

    Conventions of the embedding.
    - Python floats are idealised as exact rationals ([Qc], canonical
      fractions, so that equality is Leibniz equality and [field] applies).
      Rounding, infinities and NaN are outside the model.
    - Python's true division [x / y] raises [ZeroDivisionError] on a zero
      divisor; it is the fallible [x /? y].
    - Exceptions are values of [exn]; a computation that may raise has type
      [result A]; a method, which in addition reads and assigns attributes
      of [self], has type [method A].
    - Arrays are lists (rank 1) and lists of rows (rank 2).
    - The fourth-order projectors [J] and [K] come from the module
      [tensors], which the embedding takes as parameters. *)

From Stdlib Require Import QArith Qcanon Field.
From stdpp Require Import base option list gmap strings.

Local Open Scope Qc_scope.

(** Integer literals of the source, written so that [ring] and [field]
    see through them (stdpp already reads [2] as [1 + 1]). *)
Local Notation "3" := (2 + 1) : Qc_scope.
Local Notation "9" := (3 * 3) : Qc_scope.

(** * The embedding *)

(** ** Exceptions and the two monads *)

Inductive exn : Set :=
| ValueError
| ZeroDivisionError
| TypeError
| AttributeError.

Inductive result (A : Type) : Type :=
| Ok (a : A)
| Raise (e : exn).
Arguments Ok {A} a.
Arguments Raise {A} e.

#[global] Instance result_ret : MRet result := fun A a => Ok a.
#[global] Instance result_bind : MBind result := fun A B k r =>
  match r with
  | Ok a => k a
  | Raise e => Raise e
  end.

(** Python's [x / y] on floats. *)
Definition py_div (x y : Qc) : result Qc :=
  if decide (y = 0) then Raise ZeroDivisionError else Ok (x / y).
Infix "/?" := py_div (at level 40, left associativity) : Qc_scope.

(** ** Arrays *)

Definition vec := list Qc.
Definition mat := list (list Qc).

Inductive ndarray : Type :=
| Scalar (x : Qc)
| Vector (v : list Qc)
| Matrix (m : list (list Qc)).

(** [c * A] for a float [c] and a rank-2 array [A]. *)
Definition mat_scale (c : Qc) (A : mat) : mat := map (map (Qcmult c)) A.
(** [A + B] for two rank-2 arrays of one shape. *)
Definition mat_add (A B : mat) : mat := zip_with (zip_with Qcplus) A B.
Definition vec_sub (u v : vec) : vec := zip_with Qcminus u v.

(** [c * v] and [u + v] for rank-1 arrays. *)
Definition vec_scale (c : Qc) (v : vec) : vec := map (Qcmult c) v.
Definition vec_add (u v : vec) : vec := zip_with Qcplus u v.

Infix ".*" := mat_scale (at level 40, left associativity) : Qc_scope.
Infix ".+" := mat_add (at level 50, left associativity) : Qc_scope.

Definition inner (u v : vec) : Qc := foldr Qcplus 0 (zip_with Qcmult u v).
Definition matvec (A : mat) (x : vec) : vec := map (fun row => inner row x) A.

(** [jnp.dot(A, x)] for a rank-2 [A] and a rank-1 [x]: the contracted
    dimensions must agree, otherwise JAX raises [TypeError]. *)
Definition jnp_dot (A : mat) (x : vec) : result vec :=
  if forallb (fun row => Nat.eqb (length row) (length x)) A
  then Ok (matvec A x)
  else Raise TypeError.

(** [A] has [n] rows of [m] entries each. *)
Definition mat_shape (n m : nat) (A : mat) : Prop :=
  length A = n /\ Forall (fun row => length row = m) A.

Definition entry (A : mat) (i j : nat) : option Qc :=
  row ← A !! i; row !! j.

Definition symmetric (A : mat) : Prop :=
  forall i j : nat, entry A i j = entry A j i.

(** ** Objects *)

Inductive klass : Set :=
| LinearElasticIsotropic
| PlaneStressLinearElasticIsotropic.

(** An instance: its class and the six attributes that [__init__]
    assigns, each unset ([None]) until it has been assigned. *)
Record obj : Type := mk_obj {
  cls : klass;
  attr_E : option Qc;
  attr_nu : option Qc;
  attr_kappa : option Qc;
  attr_mu : option Qc;
  attr_C : option mat;
  attr_S : option mat
}.

Definition set_E (v : Qc) (o : obj) : obj :=
  mk_obj (cls o) (Some v) (attr_nu o) (attr_kappa o) (attr_mu o) (attr_C o) (attr_S o).
Definition set_nu (v : Qc) (o : obj) : obj :=
  mk_obj (cls o) (attr_E o) (Some v) (attr_kappa o) (attr_mu o) (attr_C o) (attr_S o).
Definition set_kappa (v : Qc) (o : obj) : obj :=
  mk_obj (cls o) (attr_E o) (attr_nu o) (Some v) (attr_mu o) (attr_C o) (attr_S o).
Definition set_mu (v : Qc) (o : obj) : obj :=
  mk_obj (cls o) (attr_E o) (attr_nu o) (attr_kappa o) (Some v) (attr_C o) (attr_S o).
Definition set_C (v : mat) (o : obj) : obj :=
  mk_obj (cls o) (attr_E o) (attr_nu o) (attr_kappa o) (attr_mu o) (Some v) (attr_S o).
Definition set_S (v : mat) (o : obj) : obj :=
  mk_obj (cls o) (attr_E o) (attr_nu o) (attr_kappa o) (attr_mu o) (attr_C o) (Some v).
Definition set_cls (c : klass) (o : obj) : obj :=
  mk_obj c (attr_E o) (attr_nu o) (attr_kappa o) (attr_mu o) (attr_C o) (attr_S o).

(** A method body: it receives [self], may assign its attributes, and
    returns a value or raises. *)
Definition method (A : Type) : Type := obj -> result A * obj.

#[global] Instance method_ret : MRet method := fun A a self => (Ok a, self).
#[global] Instance method_bind : MBind method := fun A B k m self =>
  match m self with
  | (Ok a, self') => k a self'
  | (Raise e, self') => (Raise e, self')
  end.

Definition raise {A : Type} (e : exn) : method A := fun self => (Raise e, self).
(** Evaluation of an expression that does not touch [self]. *)
Definition eval {A : Type} (r : result A) : method A := fun self => (r, self).
(** [self.a] read ... *)
Definition getattr {A : Type} (a : obj -> option A) : method A := fun self =>
  match a self with
  | Some v => (Ok v, self)
  | None => (Raise AttributeError, self)
  end.
(** ... and [self.a = v]. *)
Definition setattr {A : Type} (set : A -> obj -> obj) (v : A) : method unit :=
  fun self => (Ok tt, set v self).
Definition type_of_self : method klass := fun self => (Ok (cls self), self).

(** Values a method hands back to the finite-element solver: arrays and
    state dictionaries; a Python tuple is the list of its components. *)
Inductive pyval : Type :=
| PArray (a : ndarray)
| PDict (d : gmap string ndarray).

Definition tuple := list pyval.

(** ** The classes of [elasticity.py] *)

(** [get_Lame_parameters(self, E, nu)] as each class defines it (lines
    53-54 for the base class, lines 84-87 for the override). Division by
    the literal [2] cannot raise. *)
Definition get_Lame_parameters_of (c : klass) (E nu : Qc) : result (Qc * Qc) :=
  match c with
  | LinearElasticIsotropic =>
      a ← E * nu /? (1 + nu);
      lmbda ← a /? (1 - 2 * nu);
      mu ← E / 2 /? (1 + nu);
      mret (lmbda, mu)
  | PlaneStressLinearElasticIsotropic =>
      a ← E * nu /? (1 + nu);
      lmbda_ ← a /? (1 - 2 * nu);
      mu ← E / 2 /? (1 + nu);
      lmbda ← 2 * mu * lmbda_ /? (lmbda_ + 2 * mu);
      mret (lmbda, mu)
  end.

(** [self.get_Lame_parameters(E, nu)]: the method of the class of [self]. *)
Definition get_Lame_parameters (E nu : Qc) : method (Qc * Qc) :=
  c ← type_of_self;
  eval (get_Lame_parameters_of c E nu).

(** [compute_C_plane_stress(self)], lines 65-74. *)
Definition compute_C_plane_stress : method mat :=
  E ← getattr attr_E;
  nu ← getattr attr_nu;
  factor ← eval (E /? (1 - nu ^ 2));
  let C11 := factor in
  let C22 := factor in
  let C12 := factor * nu in
  C33 ← eval (E /? (2 * (1 + nu)));
  mret [[C11; C12; 0]; [C12; C22; 0]; [0; 0; C33]].

(** [constitutive_update(self, eps, state, dt)], lines 76-79. The
    dictionary [state] is updated in place and handed back; the embedding
    passes it through. The strain [eps] is a rank-1 array. *)
Definition constitutive_update
    (eps : vec) (state : gmap string ndarray) (dt : Qc) : method tuple :=
  C ← getattr attr_C;
  sig ← eval (jnp_dot C eps);
  let state := <["Stress" := Vector sig]> state in
  C ← getattr attr_C;
  mret [PArray (Matrix C); PDict state].

(** [A[jnp.ix_(rows, cols)]]: the array of the entries [A[i][j]], [i] in
    [rows] and [j] in [cols]. JAX's default indexing mode takes the
    indices as in bounds and leaves the result open otherwise; [None]
    stands for an index out of bounds. *)
Definition jnp_ix_get (rows cols : list nat) (A : mat) : option mat :=
  mapM (fun i => row ← A !! i; mapM (fun j => row !! j) cols) rows.

(** [get_C_plane(self)], lines 61-63; [None] as for [jnp_ix_get]. *)
Definition get_C_plane : obj -> option (result mat * obj) := fun self =>
  match getattr attr_C self with
  | (Ok C, self') =>
      let idx := [0; 1; 3]%nat in
      sub ← jnp_ix_get idx idx C; Some (Ok sub, self')
  | (Raise e, self') => Some (Raise e, self')
  end.

Section Tensors.

(** The arrays [J] and [K] imported from [.tensors]. *)
Variables J K : mat.

(** [__init__(self, E=None, nu=None, kappa=None, mu=None)], lines 15-51,
    run on the object [self] that [super().__init__()] has left. *)
Definition __init__ (E nu kappa mu : option Qc) : method unit :=
  '(E, nu, kappa, mu) ←
    match E, nu with
    | Some E, Some nu =>
        kappa ← eval (E /? (3 * (1 - 2 * nu)));
        mu ← eval (E /? (2 * (1 + nu)));
        mret (E, nu, kappa, mu)
    | _, _ =>
        match kappa, mu with
        | Some kappa, Some mu =>
            E ← eval (9 * kappa * mu /? (3 * kappa + mu));
            nu ← eval ((3 * kappa - 2 * mu) /? (2 * (3 * kappa + mu)));
            mret (E, nu, kappa, mu)
        | _, _ => raise ValueError
        end
    end;
  setattr set_E E;;
  setattr set_nu nu;;
  setattr set_kappa kappa;;
  setattr set_mu mu;;
  k ← getattr attr_kappa;
  m ← getattr attr_mu;
  setattr set_C (3 * k .* J .+ 2 * m .* K);;
  k ← getattr attr_kappa;
  a ← eval (1 /? (3 * k));
  m ← getattr attr_mu;
  b ← eval (1 /? (2 * m));
  setattr set_S (a .* J .+ b .* K).

(** [compute_C(self, E, nu)], lines 56-59. The quotient [2 / 3] of two
    literals cannot raise. *)
Definition compute_C (E nu : Qc) : method mat :=
  '(lmbda, mu) ← get_Lame_parameters E nu;
  let kappa := lmbda + 2 / 3 * mu in
  mret (3 * kappa .* J .+ 2 * mu .* K).

(** [m] is what a successful call of the constructor leaves. *)
Definition constructed (m : obj) : Prop :=
  exists (self0 : obj) (E nu kappa mu : option Qc),
    __init__ E nu kappa mu self0 = (Ok tt, m).

(** The object a successful [__init__] leaves, in terms of the four
    moduli it has settled on. *)
Definition built (self0 : obj) (E nu kappa mu : Qc) : obj :=
  mk_obj (cls self0) (Some E) (Some nu) (Some kappa) (Some mu)
    (Some (3 * kappa .* J .+ 2 * mu .* K))
    (Some (1 / (3 * kappa) .* J .+ 1 / (2 * mu) .* K)).

End Tensors.

(** ** A sample instantiation

    Values chosen here to run the definitions on: the usual isotropic
    projectors on six-component vectors for [J] and [K], an object with
    no attribute assigned, and an instance built with them. *)

Definition third : Qc := 1 / 3.
Definition J_iso : mat :=
  [[third; third; third; 0; 0; 0];
   [third; third; third; 0; 0; 0];
   [third; third; third; 0; 0; 0];
   [0; 0; 0; 0; 0; 0];
   [0; 0; 0; 0; 0; 0];
   [0; 0; 0; 0; 0; 0]].
Definition K_iso : mat :=
  [[1 - third; - third; - third; 0; 0; 0];
   [- third; 1 - third; - third; 0; 0; 0];
   [- third; - third; 1 - third; 0; 0; 0];
   [0; 0; 0; 1; 0; 0];
   [0; 0; 0; 0; 1; 0];
   [0; 0; 0; 0; 0; 1]].

Definition blank (c : klass) : obj := mk_obj c None None None None None None.

(** The instance [LinearElasticIsotropic(E=3, nu=0)] over the sample
    projectors, two strains and a state to run the update on. *)
Definition m_sample : obj :=
  snd (__init__ J_iso K_iso (Some 3) (Some 0) None None (blank LinearElasticIsotropic)).
Definition eps_sample : vec := [1; 2; 0; 0; 0; 3].
Definition eps_sample' : vec := [0; 1; 1; 0; 2; 0].
Definition state_sample : gmap string ndarray :=
  <["p" := Scalar 1]> (<["Stress" := Vector [0; 0; 0; 0; 0; 0]]> ∅).

(** * Properties *)

(** ** The constructor on three calls *)

Example init_E_nu :
  fst (__init__ J_iso K_iso (Some 3) (Some 0) None None (blank LinearElasticIsotropic))
  = Ok tt.
Proof. vm_compute. reflexivity. Qed.

Example init_nothing :
  fst (__init__ J_iso K_iso (Some 3) None None (Some 1) (blank LinearElasticIsotropic))
  = Raise ValueError.
Proof. vm_compute. reflexivity. Qed.

Example init_incompressible :
  fst (__init__ J_iso K_iso (Some 3) (Some (1 / 2)) None None (blank LinearElasticIsotropic))
  = Raise ZeroDivisionError.
Proof. vm_compute. reflexivity. Qed.

(** ** Arithmetic facts *)

Lemma two_neq_0 : (2 : Qc) <> 0.
Proof. discriminate. Qed.

Lemma three_neq_0 : (3 : Qc) <> 0.
Proof. discriminate. Qed.

Lemma Qcmult_neq_0 (x y : Qc) : x <> 0 -> y <> 0 -> x * y <> 0.
Proof. intros Hx Hy H. destruct (Qcmult_integral _ _ H); contradiction. Qed.

Lemma Qcmult_neq_0_inv (x y : Qc) : x * y <> 0 -> x <> 0 /\ y <> 0.
Proof.
  intros H. split; intros ->; apply H; ring.
Qed.

Lemma one_minus_two_nu (nu : Qc) : 1 - 2 * nu <> 0 <-> nu <> 1 / 2.
Proof.
  split; intros H E; apply H.
  - rewrite E. field. apply two_neq_0.
  - assert (Hnu : nu = (1 - (1 - 2 * nu)) / 2) by (field; apply two_neq_0).
    rewrite Hnu, E. field. apply two_neq_0.
Qed.

Lemma one_plus_nu (nu : Qc) : 1 + nu <> 0 <-> nu <> -1.
Proof.
  split; intros H E; apply H.
  - rewrite E. ring.
  - assert (Hnu : nu = (1 + nu) - 1) by ring.
    rewrite Hnu, E. ring.
Qed.

Lemma one_minus_nu (nu : Qc) : 1 - nu <> 0 <-> nu <> 1.
Proof.
  split; intros H E; apply H.
  - rewrite E. ring.
  - assert (Hnu : nu = 1 - (1 - nu)) by ring.
    rewrite Hnu, E. ring.
Qed.

Lemma one_minus_nu_sq (nu : Qc) : 1 - nu ^ 2 <> 0 <-> nu <> 1 /\ nu <> -1.
Proof.
  assert (Hfac : 1 - nu ^ 2 = (1 - nu) * (1 + nu)) by (simpl; ring).
  rewrite Hfac, <- one_minus_nu, <- one_plus_nu. split.
  - apply Qcmult_neq_0_inv.
  - intros [? ?]. by apply Qcmult_neq_0.
Qed.

Lemma one_minus_nu_nu (nu : Qc) : nu <> 1 -> nu <> -1 -> 1 - nu * nu <> 0.
Proof.
  intros H1 H2.
  assert (Hfac : 1 - nu * nu = (1 - nu) * (1 + nu)) by ring.
  rewrite Hfac. apply Qcmult_neq_0; [by apply one_minus_nu | by apply one_plus_nu].
Qed.

Lemma py_div_Ok (x y : Qc) : y <> 0 -> x /? y = Ok (x / y).
Proof. intros H. unfold py_div. by case_decide. Qed.

Lemma py_div_Raise (x y : Qc) : y = 0 -> x /? y = Raise ZeroDivisionError.
Proof. intros H. unfold py_div. by case_decide. Qed.

Lemma py_div_inv (x y q : Qc) : x /? y = Ok q -> y <> 0 /\ q = x / y.
Proof. unfold py_div. case_decide; intros [= <-]; done. Qed.

Lemma py_div_cases (x y : Qc) :
  (y = 0 /\ x /? y = Raise ZeroDivisionError) \/ (y <> 0 /\ x /? y = Ok (x / y)).
Proof.
  destruct (decide (y = 0)) as [H|H]; [left|right]; split; trivial.
  - by apply py_div_Raise.
  - by apply py_div_Ok.
Qed.

(** Non-zero divisors, also as [field] leaves them. *)
Ltac solve_neq_0 :=
  repeat split; repeat (apply Qcmult_neq_0);
  match goal with
  | H : ?x <> _ |- ?x <> _ => exact H
  | H1 : ?nu <> 1, H2 : ?nu <> -1 |- _ - ?nu * ?nu <> _ =>
      exact (one_minus_nu_nu nu H1 H2)
  | H : ?nu <> 1 / 2 |- _ - _ * ?nu <> _ => exact (proj2 (one_minus_two_nu nu) H)
  | H : ?nu <> -1 |- _ + ?nu <> _ => exact (proj2 (one_plus_nu nu) H)
  | H : ?nu <> 1 |- _ - ?nu <> _ => exact (proj2 (one_minus_nu nu) H)
  | |- Qcmake _ _ <> _ => discriminate
  | |- 1 + 1 <> _ => exact two_neq_0
  | |- 1 + 1 + 1 <> _ => exact three_neq_0
  end.

(** Unfolds the monadic plumbing of a method body. *)
Ltac unfold_method :=
  cbv [mbind mret method_bind method_ret result_bind result_ret
       eval getattr setattr raise type_of_self].

(** The same, and the assignments to [self] carried out. *)
Ltac run_method :=
  cbv [mbind mret method_bind method_ret result_bind result_ret
       eval getattr setattr raise type_of_self
       set_E set_nu set_kappa set_mu set_C set_S set_cls
       cls attr_E attr_nu attr_kappa attr_mu attr_C attr_S fst snd].

(** ** The constructor *)

Section Constructor.

Variables J K : mat.

Lemma kappa_of_E_nu_neq_0 (E nu : Qc) :
  E <> 0 -> nu <> 1 / 2 -> E / (3 * (1 - 2 * nu)) <> 0.
Proof.
  intros HE Hnu H. apply HE.
  assert (HE' : E = E / (3 * (1 - 2 * nu)) * (3 * (1 - 2 * nu)))
    by (field; solve_neq_0).
  rewrite HE', H. ring.
Qed.

Lemma mu_of_E_nu_neq_0 (E nu : Qc) :
  E <> 0 -> nu <> -1 -> E / (2 * (1 + nu)) <> 0.
Proof.
  intros HE Hnu H. apply HE.
  assert (HE' : E = E / (2 * (1 + nu)) * (2 * (1 + nu)))
    by (field; solve_neq_0).
  rewrite HE', H. ring.
Qed.

(** Given [(E, nu)]: lines 33-35 and 46-51. *)
Lemma init_E_nu_Ok (self0 : obj) (E nu : Qc) (kappa mu : option Qc) :
  E <> 0 -> nu <> 1 / 2 -> nu <> -1 ->
  __init__ J K (Some E) (Some nu) kappa mu self0
  = (Ok tt, built J K self0 E nu (E / (3 * (1 - 2 * nu))) (E / (2 * (1 + nu)))).
Proof.
  intros HE H1 H2. unfold __init__. run_method.
  rewrite (py_div_Ok E (3 * (1 - 2 * nu))) by solve_neq_0.
  rewrite (py_div_Ok E (2 * (1 + nu))) by solve_neq_0.
  run_method.
  rewrite (py_div_Ok 1 (3 * (E / (3 * (1 - 2 * nu)))))
    by (apply Qcmult_neq_0; [apply three_neq_0 | by apply kappa_of_E_nu_neq_0]).
  rewrite (py_div_Ok 1 (2 * (E / (2 * (1 + nu)))))
    by (apply Qcmult_neq_0; [apply two_neq_0 | by apply mu_of_E_nu_neq_0]).
  reflexivity.
Qed.

(** Given [(kappa, mu)] only: lines 38-40 and 46-51. *)
Lemma init_kappa_mu_Ok (self0 : obj) (E nu : option Qc) (kappa mu : Qc) :
  E = None \/ nu = None ->
  kappa <> 0 -> mu <> 0 -> 3 * kappa + mu <> 0 ->
  __init__ J K E nu (Some kappa) (Some mu) self0
  = (Ok tt, built J K self0 (9 * kappa * mu / (3 * kappa + mu))
                        ((3 * kappa - 2 * mu) / (2 * (3 * kappa + mu)))
                        kappa mu).
Proof.
  intros HN Hk Hm Hs.
  assert (__init__ J K E nu (Some kappa) (Some mu) self0
          = __init__ J K None None (Some kappa) (Some mu) self0) as ->.
  { destruct HN as [-> | ->]; [reflexivity | by destruct E]. }
  unfold __init__. run_method.
  rewrite (py_div_Ok _ (3 * kappa + mu)) by done.
  rewrite (py_div_Ok _ (2 * (3 * kappa + mu))) by solve_neq_0.
  run_method.
  rewrite (py_div_Ok 1 (3 * kappa)) by solve_neq_0.
  rewrite (py_div_Ok 1 (2 * mu)) by solve_neq_0.
  reflexivity.
Qed.

(** What a successful construction tells about its arguments. *)
Lemma init_Ok_inv (self0 m : obj) (E nu kappa mu : option Qc) :
  __init__ J K E nu kappa mu self0 = (Ok tt, m) ->
  exists E' nu' kappa' mu' : Qc,
    m = built J K self0 E' nu' kappa' mu' /\ kappa' <> 0 /\ mu' <> 0 /\
    ((E = Some E' /\ nu = Some nu' /\ nu' <> 1 / 2 /\ nu' <> -1 /\
      kappa' = E' / (3 * (1 - 2 * nu')) /\ mu' = E' / (2 * (1 + nu')))
     \/
     ((E = None \/ nu = None) /\ kappa = Some kappa' /\ mu = Some mu' /\
      3 * kappa' + mu' <> 0 /\
      E' = 9 * kappa' * mu' / (3 * kappa' + mu') /\
      nu' = (3 * kappa' - 2 * mu') / (2 * (3 * kappa' + mu')))).
Proof.
  intros H.
  assert (Hcases :
    (exists E' nu', E = Some E' /\ nu = Some nu') \/
    ((E = None \/ nu = None) /\
     __init__ J K E nu kappa mu self0 = __init__ J K None None kappa mu self0)).
  { destruct E as [E'|]; [destruct nu as [nu'|]|]; eauto. }
  destruct Hcases as [(E' & nu' & -> & ->) | [HN Heq]].
  - unfold __init__ in H. revert H. run_method.
    destruct (py_div_cases E' (3 * (1 - 2 * nu'))) as [[_ ->]|[Hd1 ->]]; [done|].
    destruct (py_div_cases E' (2 * (1 + nu'))) as [[_ ->]|[Hd2 ->]]; [done|].
    run_method.
    destruct (py_div_cases 1 (3 * (E' / (3 * (1 - 2 * nu'))))) as [[_ ->]|[Hd3 ->]]; [done|].
    destruct (py_div_cases 1 (2 * (E' / (2 * (1 + nu'))))) as [[_ ->]|[Hd4 ->]]; [done|].
    intros [= <-].
    apply Qcmult_neq_0_inv in Hd1 as [_ Hd1], Hd2 as [_ Hd2].
    apply Qcmult_neq_0_inv in Hd3 as [_ Hd3], Hd4 as [_ Hd4].
    exists E', nu', (E' / (3 * (1 - 2 * nu'))), (E' / (2 * (1 + nu'))).
    split; [reflexivity|]. split; [done|]. split; [done|]. left.
    repeat split; try done; [by apply one_minus_two_nu | by apply one_plus_nu].
  - rewrite Heq in H. clear Heq. unfold __init__ in H. revert H. run_method.
    destruct kappa as [kappa'|]; [|done]. destruct mu as [mu'|]; [|done].
    run_method.
    destruct (py_div_cases (9 * kappa' * mu') (3 * kappa' + mu')) as [[_ ->]|[Hd1 ->]]; [done|].
    destruct (py_div_cases (3 * kappa' - 2 * mu') (2 * (3 * kappa' + mu'))) as [[_ ->]|[Hd2 ->]]; [done|].
    run_method.
    destruct (py_div_cases 1 (3 * kappa')) as [[_ ->]|[Hd3 ->]]; [done|].
    destruct (py_div_cases 1 (2 * mu')) as [[_ ->]|[Hd4 ->]]; [done|].
    intros [= <-].
    apply Qcmult_neq_0_inv in Hd3 as [_ Hd3], Hd4 as [_ Hd4].
    eexists _, _, kappa', mu'.
    split; [reflexivity|]. split; [done|]. split; [done|]. right.
    repeat split; done.
Qed.

(** [self.C] is assigned on line 50, before the compliance [S] is
    attempted on line 51. *)
Lemma init_E_nu_C (self0 : obj) (E nu : Qc) (kappa mu : option Qc) :
  nu <> 1 / 2 -> nu <> -1 ->
  attr_C (snd (__init__ J K (Some E) (Some nu) kappa mu self0))
  = Some (3 * (E / (3 * (1 - 2 * nu))) .* J .+ 2 * (E / (2 * (1 + nu))) .* K).
Proof.
  intros H1 H2. unfold __init__. run_method.
  rewrite (py_div_Ok E (3 * (1 - 2 * nu))) by solve_neq_0.
  rewrite (py_div_Ok E (2 * (1 + nu))) by solve_neq_0.
  run_method.
  destruct (py_div_cases 1 (3 * (E / (3 * (1 - 2 * nu))))) as [[_ ->]|[_ ->]]; [done|].
  destruct (py_div_cases 1 (2 * (E / (2 * (1 + nu))))) as [[_ ->]|[_ ->]]; done.
Qed.

End Constructor.

(** ** Arrays: shapes and linearity *)

Lemma mat_scale_shape (n m : nat) (c : Qc) (A : mat) :
  mat_shape n m A -> mat_shape n m (c .* A).
Proof.
  intros [Hn Hrows]. split.
  - unfold mat_scale. by rewrite length_map.
  - unfold mat_scale. apply Forall_map.
    eapply Forall_impl; [exact Hrows|]. intros row Hrow; simpl.
    by rewrite length_map.
Qed.

Lemma mat_add_shape (n m : nat) (A B : mat) :
  mat_shape n m A -> mat_shape n m B -> mat_shape n m (A .+ B).
Proof.
  intros [HnA HA] [HnB HB]. split.
  - unfold mat_add. rewrite length_zip_with. lia.
  - clear HnA HnB. unfold mat_add. revert B HB.
    induction HA as [|a A Ha HA IH]; intros B HB; [constructor|].
    destruct HB as [|b B Hb HB]; [constructor|]. simpl. constructor.
    + rewrite length_zip_with. lia.
    + by apply IH.
Qed.

Lemma stiffness_shape (d : nat) (J K : mat) (a b : Qc) :
  mat_shape d d J -> mat_shape d d K -> mat_shape d d (a .* J .+ b .* K).
Proof. intros HJ HK. by apply mat_add_shape; apply mat_scale_shape. Qed.

Lemma jnp_dot_Ok (n m : nat) (A : mat) (x : vec) :
  mat_shape n m A -> length x = m -> jnp_dot A x = Ok (matvec A x).
Proof.
  intros [_ Hrows] Hx. unfold jnp_dot.
  assert (forallb (fun row => Nat.eqb (length row) (length x)) A = true) as ->;
    [|reflexivity].
  apply forallb_forall. intros row Hin. apply Nat.eqb_eq.
  rewrite Forall_forall in Hrows. rewrite Hx. apply Hrows.
  by apply list_elem_of_In.
Qed.

Lemma inner_sub (row x y : vec) :
  length x = length y ->
  inner row (vec_sub x y) = inner row x - inner row y.
Proof.
  unfold inner, vec_sub. revert x y.
  induction row as [|r row IH]; intros x y Hlen; simpl; [ring|].
  destruct x as [|a x], y as [|b y]; simpl in *; try discriminate; [ring|].
  rewrite IH by congruence. ring.
Qed.

Lemma matvec_sub (A : mat) (x y : vec) :
  length x = length y ->
  matvec A (vec_sub x y) = vec_sub (matvec A x) (matvec A y).
Proof.
  intros Hlen. unfold matvec.
  induction A as [|row A IH]; simpl; [reflexivity|].
  rewrite inner_sub by done. unfold vec_sub in *. simpl. by rewrite IH.
Qed.

Lemma vec_sub_length (x y : vec) :
  length x = length y -> length (vec_sub x y) = length x.
Proof. intros H. unfold vec_sub. rewrite length_zip_with. lia. Qed.

(** ** The update at a quadrature point *)

Lemma constitutive_update_Ok
    (self : obj) (C : mat) (eps sig : vec) (state : gmap string ndarray) (dt : Qc) :
  attr_C self = Some C ->
  jnp_dot C eps = Ok sig ->
  constitutive_update eps state dt self
  = (Ok [PArray (Matrix C); PDict (<["Stress" := Vector sig]> state)], self).
Proof.
  intros HC Hdot. unfold constitutive_update. unfold_method.
  rewrite HC, Hdot. cbv beta iota. by rewrite HC.
Qed.

Lemma constructed_C (d : nat) (J K : mat) (m : obj) :
  mat_shape d d J -> mat_shape d d K -> constructed J K m ->
  exists C : mat, attr_C m = Some C /\ mat_shape d d C.
Proof.
  intros HJ HK (self0 & E & nu & kappa & mu & Hinit).
  apply init_Ok_inv in Hinit as (E' & nu' & kappa' & mu' & -> & _).
  eexists. split; [reflexivity|]. by apply stiffness_shape.
Qed.

Lemma J_iso_shape : mat_shape 6 6 J_iso.
Proof. split; [reflexivity | repeat constructor]. Qed.

Lemma K_iso_shape : mat_shape 6 6 K_iso.
Proof. split; [reflexivity | repeat constructor]. Qed.

Lemma m_sample_constructed : constructed J_iso K_iso m_sample.
Proof.
  exists (blank LinearElasticIsotropic), (Some 3), (Some 0), None, None.
  vm_compute. reflexivity.
Qed.

(** ** Claims on [constitutive_update] *)

(** C1. For every successfully constructed instance [m], every strain
    vector [eps] (of the dimension [d] of the projectors), every state
    dictionary and every time step, [constitutive_update] returns the
    stiffness [m.C] as the tangent operator, and a state whose ["Stress"]
    entry is the matrix-vector product of [m.C] and [eps]. *)
Theorem constitutive_update_returns_C_and_stress
    (d : nat) (J K : mat) (m : obj)
    (eps : vec) (state : gmap string ndarray) (dt : Qc) :
  mat_shape d d J -> mat_shape d d K ->
  constructed J K m ->
  length eps = d ->
  exists (C : mat) (state' : gmap string ndarray),
    attr_C m = Some C /\
    constitutive_update eps state dt m
    = (Ok [PArray (Matrix C); PDict state'], m) /\
    state' !! "Stress" = Some (Vector (matvec C eps)).
Proof.
  intros HJ HK Hm Heps.
  destruct (constructed_C d J K m HJ HK Hm) as (C & HC & Hshape).
  exists C, (<["Stress" := Vector (matvec C eps)]> state).
  split; [exact HC|]. split.
  - apply constitutive_update_Ok; [exact HC|]. by eapply jnp_dot_Ok.
  - apply lookup_insert_eq.
Qed.

Lemma constitutive_update_returns_C_and_stress_witness :
  exists (C : mat) (state' : gmap string ndarray),
    attr_C m_sample = Some C /\
    constitutive_update eps_sample state_sample 1 m_sample
    = (Ok [PArray (Matrix C); PDict state'], m_sample) /\
    state' !! "Stress" = Some (Vector (matvec C eps_sample)).
Proof.
  apply (constitutive_update_returns_C_and_stress 6 J_iso K_iso).
  - apply J_iso_shape.
  - apply K_iso_shape.
  - apply m_sample_constructed.
  - reflexivity.
Defined.

(** C2, as the code has it. The update maps (strain, state, time step)
    to a pair (tangent operator, updated state); the stress is not a
    component of the result but the ["Stress"] entry of the updated
    state. *)
Theorem constitutive_update_returns_pair
    (self : obj) (C : mat) (eps : vec) (state : gmap string ndarray) (dt : Qc) :
  attr_C self = Some C ->
  Forall (fun row => length row = length eps) C ->
  exists (result : tuple) (state' : gmap string ndarray),
    fst (constitutive_update eps state dt self) = Ok result /\
    length result = 2%nat /\
    result = [PArray (Matrix C); PDict state'] /\
    state' !! "Stress" = Some (Vector (matvec C eps)).
Proof.
  intros HC Hrows.
  exists [PArray (Matrix C); PDict (<["Stress" := Vector (matvec C eps)]> state)],
    (<["Stress" := Vector (matvec C eps)]> state).
  split; [|split; [reflexivity|split; [reflexivity|apply lookup_insert_eq]]].
  erewrite constitutive_update_Ok; [reflexivity|exact HC|].
  by apply (jnp_dot_Ok (length C) (length eps)).
Qed.

Lemma constitutive_update_returns_pair_witness :
  exists (result : tuple) (state' : gmap string ndarray),
    fst (constitutive_update eps_sample state_sample 1 m_sample) = Ok result /\
    length result = 2%nat /\
    result = [PArray (Matrix (3 * 1 .* J_iso .+ 2 * (3 / 2) .* K_iso)); PDict state'] /\
    state' !! "Stress"
    = Some (Vector (matvec (3 * 1 .* J_iso .+ 2 * (3 / 2) .* K_iso) eps_sample)).
Proof.
  apply constitutive_update_returns_pair.
  - vm_compute. reflexivity.
  - vm_compute. repeat constructor.
Defined.

(** C2, as the specification words it, fails: on the sample instance the
    result has two components, so it is no triple with the stress as a
    component of its own. *)
Lemma constitutive_update_no_triple :
  ~ exists (Ct sig state' : pyval),
      fst (constitutive_update eps_sample state_sample 1 m_sample)
      = Ok [Ct; sig; state'].
Proof.
  intros (Ct & sig & state' & H).
  vm_compute in H. discriminate H.
Qed.

(** C3. The returned tangent is the Jacobian of the stress with respect
    to the strain: for two strains [eps1] and [eps2], one state and one
    time step, both calls return the same tangent [Ct], and the
    difference of the two ["Stress"] entries is [Ct] applied to
    [eps1 - eps2]. *)
Theorem tangent_is_jacobian_of_stress
    (d : nat) (J K : mat) (m : obj)
    (eps1 eps2 : vec) (state : gmap string ndarray) (dt : Qc) :
  mat_shape d d J -> mat_shape d d K ->
  constructed J K m ->
  length eps1 = d -> length eps2 = d ->
  exists (Ct : mat) (sig1 sig2 : vec) (state1 state2 : gmap string ndarray),
    constitutive_update eps1 state dt m
    = (Ok [PArray (Matrix Ct); PDict state1], m) /\
    constitutive_update eps2 state dt m
    = (Ok [PArray (Matrix Ct); PDict state2], m) /\
    state1 !! "Stress" = Some (Vector sig1) /\
    state2 !! "Stress" = Some (Vector sig2) /\
    jnp_dot Ct (vec_sub eps1 eps2) = Ok (vec_sub sig1 sig2).
Proof.
  intros HJ HK Hm H1 H2.
  destruct (constructed_C d J K m HJ HK Hm) as (C & HC & Hshape).
  exists C, (matvec C eps1), (matvec C eps2),
    (<["Stress" := Vector (matvec C eps1)]> state),
    (<["Stress" := Vector (matvec C eps2)]> state).
  repeat split.
  - apply constitutive_update_Ok; [exact HC | by eapply jnp_dot_Ok].
  - apply constitutive_update_Ok; [exact HC | by eapply jnp_dot_Ok].
  - apply lookup_insert_eq.
  - apply lookup_insert_eq.
  - rewrite (jnp_dot_Ok d d) by (trivial; rewrite vec_sub_length; congruence).
    f_equal. apply matvec_sub. congruence.
Qed.

Lemma tangent_is_jacobian_of_stress_witness :
  exists (Ct : mat) (sig1 sig2 : vec) (state1 state2 : gmap string ndarray),
    constitutive_update eps_sample state_sample 1 m_sample
    = (Ok [PArray (Matrix Ct); PDict state1], m_sample) /\
    constitutive_update eps_sample' state_sample 1 m_sample
    = (Ok [PArray (Matrix Ct); PDict state2], m_sample) /\
    state1 !! "Stress" = Some (Vector sig1) /\
    state2 !! "Stress" = Some (Vector sig2) /\
    jnp_dot Ct (vec_sub eps_sample eps_sample') = Ok (vec_sub sig1 sig2).
Proof.
  apply (tangent_is_jacobian_of_stress 6 J_iso K_iso).
  - apply J_iso_shape.
  - apply K_iso_shape.
  - apply m_sample_constructed.
  - reflexivity.
  - reflexivity.
Defined.

(** C10. [constitutive_update] leaves [self] as it was, whether it
    returns or raises, and does not depend on [dt]; when it returns (the
    rows of [self.C] having the length of [eps]), the returned state
    agrees with the given one on every key other than ["Stress"]. *)
Theorem constitutive_update_frame
    (self : obj) (eps : vec) (state : gmap string ndarray) (dt dt' : Qc) :
  snd (constitutive_update eps state dt self) = self /\
  constitutive_update eps state dt self = constitutive_update eps state dt' self /\
  (forall C : mat,
     attr_C self = Some C ->
     Forall (fun row => length row = length eps) C ->
     exists (Ct : pyval) (state' : gmap string ndarray),
       fst (constitutive_update eps state dt self) = Ok [Ct; PDict state'] /\
       forall key : string, key <> "Stress" -> state' !! key = state !! key).
Proof.
  split; [|split].
  - unfold constitutive_update. unfold_method.
    destruct (attr_C self) as [C|] eqn:HC; [|reflexivity].
    destruct (jnp_dot C eps); cbv beta iota; [|reflexivity].
    by rewrite HC.
  - reflexivity.
  - intros C HC Hrows.
    exists (PArray (Matrix C)), (<["Stress" := Vector (matvec C eps)]> state).
    split.
    + erewrite constitutive_update_Ok; [reflexivity | exact HC |].
      by apply (jnp_dot_Ok (length C) (length eps)).
    + intros key Hkey. by apply lookup_insert_ne.
Qed.

Lemma constitutive_update_frame_witness :
  snd (constitutive_update eps_sample state_sample 1 m_sample) = m_sample /\
  constitutive_update eps_sample state_sample 1 m_sample
  = constitutive_update eps_sample state_sample 2 m_sample /\
  exists (Ct : pyval) (state' : gmap string ndarray),
    fst (constitutive_update eps_sample state_sample 1 m_sample)
    = Ok [Ct; PDict state'] /\
    state' !! "p" = Some (Scalar 1).
Proof.
  destruct (constitutive_update_frame m_sample eps_sample state_sample 1 2)
    as (Hself & Hdt & Hframe).
  split; [exact Hself|]. split; [exact Hdt|].
  destruct (Hframe (3 * 1 .* J_iso .+ 2 * (3 / 2) .* K_iso))
    as (Ct & state' & Hret & Hkeys).
  - vm_compute. reflexivity.
  - vm_compute. repeat constructor.
  - exists Ct, state'. split; [exact Hret|].
    rewrite Hkeys by discriminate. reflexivity.
Defined.

(** ** Claims on the plane-stress stiffness and the Lame parameters *)

Lemma three_by_three_symmetric (a b c : Qc) :
  symmetric [[a; b; 0]; [b; a; 0]; [0; 0; c]].
Proof.
  intros i j. unfold entry.
  destruct i as [|[|[|i]]], j as [|[|[|j]]]; reflexivity.
Qed.

Lemma compute_C_plane_stress_Ok (self : obj) (E nu : Qc) :
  attr_E self = Some E -> attr_nu self = Some nu ->
  nu <> 1 -> nu <> -1 ->
  compute_C_plane_stress self
  = (Ok [[E / (1 - nu ^ 2); E / (1 - nu ^ 2) * nu; 0];
         [E / (1 - nu ^ 2) * nu; E / (1 - nu ^ 2); 0];
         [0; 0; E / (2 * (1 + nu))]], self).
Proof.
  intros HE Hnu H1 H2.
  assert (Hsq : 1 - nu ^ 2 <> 0) by (by apply one_minus_nu_sq).
  unfold compute_C_plane_stress. unfold_method. rewrite HE, Hnu.
  rewrite (py_div_Ok E (1 - nu ^ 2)) by exact Hsq.
  clear Hsq. rewrite (py_div_Ok E (2 * (1 + nu))) by solve_neq_0.
  reflexivity.
Qed.

(** C5. On an instance whose attributes are [E] and [nu], with [nu]
    neither [1] nor [-1], [compute_C_plane_stress] returns a symmetric
    3 x 3 matrix with C11 = C22 = E / (1 - nu^2), C12 = C21 = nu * C11,
    zero in the four remaining off-diagonal places, and
    C33 = E / (2 (1 + nu)) = C11 (1 - nu) / 2. *)
Theorem compute_C_plane_stress_entries (self : obj) (E nu : Qc) :
  attr_E self = Some E -> attr_nu self = Some nu ->
  nu <> 1 -> nu <> -1 ->
  exists C11 C12 C33 : Qc,
    compute_C_plane_stress self
    = (Ok [[C11; C12; 0]; [C12; C11; 0]; [0; 0; C33]], self) /\
    mat_shape 3 3 [[C11; C12; 0]; [C12; C11; 0]; [0; 0; C33]] /\
    symmetric [[C11; C12; 0]; [C12; C11; 0]; [0; 0; C33]] /\
    C11 = E / (1 - nu ^ 2) /\
    C12 = nu * C11 /\
    C33 = E / (2 * (1 + nu)) /\
    C33 = C11 * (1 - nu) / 2.
Proof.
  intros HE Hnu H1 H2.
  exists (E / (1 - nu ^ 2)), (E / (1 - nu ^ 2) * nu), (E / (2 * (1 + nu))).
  split; [|split; [|split; [|split; [|split; [|split]]]]].
  - by apply compute_C_plane_stress_Ok.
  - split; [reflexivity | repeat constructor].
  - apply three_by_three_symmetric.
  - reflexivity.
  - ring.
  - reflexivity.
  - simpl. field. solve_neq_0.
Qed.

Lemma compute_C_plane_stress_entries_witness :
  exists C11 C12 C33 : Qc,
    compute_C_plane_stress m_sample
    = (Ok [[C11; C12; 0]; [C12; C11; 0]; [0; 0; C33]], m_sample) /\
    mat_shape 3 3 [[C11; C12; 0]; [C12; C11; 0]; [0; 0; C33]] /\
    symmetric [[C11; C12; 0]; [C12; C11; 0]; [0; 0; C33]] /\
    C11 = 3 / (1 - 0 ^ 2) /\
    C12 = 0 * C11 /\
    C33 = 3 / (2 * (1 + 0)) /\
    C33 = C11 * (1 - 0) / 2.
Proof.
  apply compute_C_plane_stress_entries.
  - vm_compute. reflexivity.
  - vm_compute. reflexivity.
  - discriminate.
  - discriminate.
Defined.

(** The closed forms behind [get_Lame_parameters]. *)
Lemma Lame_base (E nu : Qc) :
  nu <> 1 / 2 -> nu <> -1 ->
  get_Lame_parameters_of LinearElasticIsotropic E nu
  = Ok (E * nu / (1 + nu) / (1 - 2 * nu), E / 2 / (1 + nu)).
Proof.
  intros H1 H2. cbv [get_Lame_parameters_of mbind mret result_bind result_ret].
  rewrite (py_div_Ok (E * nu) (1 + nu)) by solve_neq_0.
  rewrite (py_div_Ok _ (1 - 2 * nu)) by solve_neq_0.
  rewrite (py_div_Ok (E / 2) (1 + nu)) by solve_neq_0.
  reflexivity.
Qed.

Lemma Lame_sum (E nu : Qc) :
  nu <> 1 / 2 -> nu <> -1 ->
  E * nu / (1 + nu) / (1 - 2 * nu) + 2 * (E / 2 / (1 + nu))
  = E * (1 - nu) / ((1 + nu) * (1 - 2 * nu)).
Proof. intros H1 H2. field. solve_neq_0. Qed.

Lemma Lame_sum_neq_0 (E nu : Qc) :
  E <> 0 -> nu <> 1 / 2 -> nu <> -1 -> nu <> 1 ->
  E * nu / (1 + nu) / (1 - 2 * nu) + 2 * (E / 2 / (1 + nu)) <> 0.
Proof.
  intros HE H1 H2 H3. rewrite Lame_sum by done. intros Hz.
  assert (Hnum : E * (1 - nu) <> 0) by solve_neq_0.
  apply Hnum.
  assert (Hmul : E * (1 - nu)
                 = E * (1 - nu) / ((1 + nu) * (1 - 2 * nu)) * ((1 + nu) * (1 - 2 * nu)))
    by (field; solve_neq_0).
  rewrite Hmul, Hz. ring.
Qed.

Lemma Lame_sum_eq_0 (E nu : Qc) :
  nu <> 1 / 2 -> nu <> -1 -> E = 0 \/ nu = 1 ->
  E * nu / (1 + nu) / (1 - 2 * nu) + 2 * (E / 2 / (1 + nu)) = 0.
Proof.
  intros H1 H2 H. rewrite Lame_sum by done.
  destruct H as [-> | ->]; field; solve_neq_0.
Qed.

Lemma plane_stress_lmbda (E nu : Qc) :
  E <> 0 -> nu <> 1 / 2 -> nu <> -1 -> nu <> 1 ->
  2 * (E / 2 / (1 + nu)) * (E * nu / (1 + nu) / (1 - 2 * nu))
  / (E * nu / (1 + nu) / (1 - 2 * nu) + 2 * (E / 2 / (1 + nu)))
  = E * nu / (1 - nu ^ 2).
Proof.
  intros HE H1 H2 H3. rewrite Lame_sum by done. simpl. field. solve_neq_0.
Qed.

(** C4, as the code has it. For every [E] other than [0] and every [nu]
    other than [1/2], [-1] and [1], the plane-stress
    [get_Lame_parameters(E, nu)] returns
    (2 mu lambda / (lambda + 2 mu), mu), where (lambda, mu) is what the
    base class returns; the first component is E nu / (1 - nu^2), which
    is the entry C12 of the matrix that [compute_C_plane_stress] returns
    on an instance with these [E] and [nu]. *)
Theorem plane_stress_Lame_parameters (E nu : Qc) :
  E <> 0 -> nu <> 1 / 2 -> nu <> -1 -> nu <> 1 ->
  exists lmbda mu : Qc,
    get_Lame_parameters_of LinearElasticIsotropic E nu = Ok (lmbda, mu) /\
    get_Lame_parameters_of PlaneStressLinearElasticIsotropic E nu
    = Ok (2 * mu * lmbda / (lmbda + 2 * mu), mu) /\
    2 * mu * lmbda / (lmbda + 2 * mu) = E * nu / (1 - nu ^ 2) /\
    forall self : obj,
      attr_E self = Some E -> attr_nu self = Some nu ->
      exists C_plane_stress : mat,
        compute_C_plane_stress self = (Ok C_plane_stress, self) /\
        entry C_plane_stress 0 1 = Some (2 * mu * lmbda / (lmbda + 2 * mu)).
Proof.
  intros HE H1 H2 H3.
  exists (E * nu / (1 + nu) / (1 - 2 * nu)), (E / 2 / (1 + nu)).
  split; [by apply Lame_base|]. split; [|split].
  - cbv [get_Lame_parameters_of mbind mret result_bind result_ret].
    rewrite (py_div_Ok (E * nu) (1 + nu)) by solve_neq_0.
    rewrite (py_div_Ok _ (1 - 2 * nu)) by solve_neq_0.
    rewrite (py_div_Ok (E / 2) (1 + nu)) by solve_neq_0.
    rewrite py_div_Ok by (by apply Lame_sum_neq_0).
    reflexivity.
  - by apply plane_stress_lmbda.
  - intros self HsE Hsnu. eexists. split.
    + by apply compute_C_plane_stress_Ok.
    + unfold entry. simpl. f_equal.
      rewrite plane_stress_lmbda by done. simpl. field. solve_neq_0.
Qed.

Lemma plane_stress_Lame_parameters_witness :
  exists lmbda mu : Qc,
    get_Lame_parameters_of LinearElasticIsotropic 3 (1 / 3) = Ok (lmbda, mu) /\
    get_Lame_parameters_of PlaneStressLinearElasticIsotropic 3 (1 / 3)
    = Ok (2 * mu * lmbda / (lmbda + 2 * mu), mu) /\
    2 * mu * lmbda / (lmbda + 2 * mu) = 3 * (1 / 3) / (1 - (1 / 3) ^ 2) /\
    forall self : obj,
      attr_E self = Some 3 -> attr_nu self = Some (1 / 3) ->
      exists C_plane_stress : mat,
        compute_C_plane_stress self = (Ok C_plane_stress, self) /\
        entry C_plane_stress 0 1 = Some (2 * mu * lmbda / (lmbda + 2 * mu)).
Proof.
  apply plane_stress_Lame_parameters; discriminate.
Defined.

(** The plane-stress override divides by lambda + 2 mu, which vanishes
    when [E] is [0] or [nu] is [1]. *)
Lemma plane_stress_Lame_raises (E nu : Qc) :
  nu <> 1 / 2 -> nu <> -1 -> E = 0 \/ nu = 1 ->
  get_Lame_parameters_of PlaneStressLinearElasticIsotropic E nu
  = Raise ZeroDivisionError.
Proof.
  intros H1 H2 H.
  cbv [get_Lame_parameters_of mbind mret result_bind result_ret].
  rewrite (py_div_Ok (E * nu) (1 + nu)) by solve_neq_0.
  rewrite (py_div_Ok _ (1 - 2 * nu)) by solve_neq_0.
  rewrite (py_div_Ok (E / 2) (1 + nu)) by solve_neq_0.
  rewrite py_div_Raise by (by apply Lame_sum_eq_0).
  reflexivity.
Qed.

(** C4, as the specification words it, fails: with [nu] outside
    {1/2, -1} the override still raises for [E = 0], and for [nu = 1]. *)
Lemma plane_stress_Lame_parameters_not_total :
  ((1 / 3 : Qc) <> 1 / 2 /\ (1 / 3 : Qc) <> -1 /\
   get_Lame_parameters_of PlaneStressLinearElasticIsotropic 0 (1 / 3)
   = Raise ZeroDivisionError) /\
  ((1 : Qc) <> 1 / 2 /\ (1 : Qc) <> -1 /\
   get_Lame_parameters_of PlaneStressLinearElasticIsotropic 3 1
   = Raise ZeroDivisionError).
Proof.
  repeat split; try discriminate; vm_compute; reflexivity.
Qed.

(** ** The two routes to the stiffness *)

Lemma kappa_via_Lame (E nu : Qc) :
  nu <> 1 / 2 -> nu <> -1 ->
  3 * (E * nu / (1 + nu) / (1 - 2 * nu) + 2 / 3 * (E / 2 / (1 + nu)))
  = 3 * (E / (3 * (1 - 2 * nu))).
Proof. intros H1 H2. field. solve_neq_0. Qed.

Lemma mu_via_Lame (E nu : Qc) :
  nu <> -1 -> 2 * (E / 2 / (1 + nu)) = 2 * (E / (2 * (1 + nu))).
Proof. intros H. field. solve_neq_0. Qed.

(** C6. For [nu] outside {1/2, -1}, [compute_C(E, nu)] on an instance of
    the base class returns the matrix that [__init__], given the same
    [(E, nu)], assigns to [self.C]; the constructor then succeeds as soon
    as [E] is not [0]. *)
Theorem compute_C_agrees_with_init
    (J K : mat) (self self0 : obj) (E nu : Qc) (kappa mu : option Qc) :
  nu <> 1 / 2 -> nu <> -1 ->
  cls self = LinearElasticIsotropic ->
  exists C : mat,
    compute_C J K E nu self = (Ok C, self) /\
    attr_C (snd (__init__ J K (Some E) (Some nu) kappa mu self0)) = Some C /\
    (E <> 0 -> fst (__init__ J K (Some E) (Some nu) kappa mu self0) = Ok tt).
Proof.
  intros H1 H2 Hcls.
  exists (3 * (E / (3 * (1 - 2 * nu))) .* J .+ 2 * (E / (2 * (1 + nu))) .* K).
  split; [|split].
  - unfold compute_C, get_Lame_parameters. unfold_method.
    rewrite Hcls, Lame_base by done. cbv beta iota.
    by rewrite kappa_via_Lame, mu_via_Lame.
  - by apply init_E_nu_C.
  - intros HE. by rewrite init_E_nu_Ok.
Qed.

Lemma compute_C_agrees_with_init_witness :
  exists C : mat,
    compute_C J_iso K_iso 3 (1 / 3) m_sample = (Ok C, m_sample) /\
    attr_C (snd (__init__ J_iso K_iso (Some 3) (Some (1 / 3)) None None
                   (blank LinearElasticIsotropic))) = Some C /\
    fst (__init__ J_iso K_iso (Some 3) (Some (1 / 3)) None None
           (blank LinearElasticIsotropic)) = Ok tt.
Proof.
  destruct (compute_C_agrees_with_init J_iso K_iso m_sample
              (blank LinearElasticIsotropic) 3 (1 / 3) None None)
    as (C & Hcompute & Hinit & Hok); [discriminate | discriminate | reflexivity |].
  exists C. split; [exact Hcompute|]. split; [exact Hinit|].
  apply Hok. discriminate.
Defined.

(** ** Conversions between the moduli *)

Lemma Qcdiv_neq_0 (a b : Qc) : a <> 0 -> b <> 0 -> a / b <> 0.
Proof.
  intros Ha Hb. unfold Qcdiv. apply Qcmult_neq_0; [exact Ha|].
  intros Hinv. pose proof (Qcmult_inv_r b Hb) as H.
  rewrite Hinv, Qcmult_0_r in H. discriminate H.
Qed.

Lemma Qcdiv_0_l (b : Qc) : 0 / b = 0.
Proof. unfold Qcdiv. ring. Qed.

(** From [(kappa, mu)] to [(E, nu)] and back. *)
Lemma one_minus_two_nu_of_kappa_mu (kappa mu : Qc) :
  3 * kappa + mu <> 0 ->
  1 - 2 * ((3 * kappa - 2 * mu) / (2 * (3 * kappa + mu)))
  = 3 * mu / (3 * kappa + mu).
Proof. intros Hs. field. solve_neq_0. Qed.

Lemma one_plus_nu_of_kappa_mu (kappa mu : Qc) :
  3 * kappa + mu <> 0 ->
  1 + (3 * kappa - 2 * mu) / (2 * (3 * kappa + mu))
  = 9 * kappa / (2 * (3 * kappa + mu)).
Proof. intros Hs. field. solve_neq_0. Qed.

Lemma kappa_round_trip (kappa mu : Qc) :
  mu <> 0 -> 3 * kappa + mu <> 0 ->
  9 * kappa * mu / (3 * kappa + mu)
  /? (3 * (1 - 2 * ((3 * kappa - 2 * mu) / (2 * (3 * kappa + mu)))))
  = Ok kappa.
Proof.
  intros Hm Hs. rewrite one_minus_two_nu_of_kappa_mu by done.
  rewrite py_div_Ok.
  - f_equal. field. solve_neq_0.
  - apply Qcmult_neq_0; [solve_neq_0|]. apply Qcdiv_neq_0; solve_neq_0.
Qed.

Lemma mu_round_trip (kappa mu : Qc) :
  kappa <> 0 -> 3 * kappa + mu <> 0 ->
  9 * kappa * mu / (3 * kappa + mu)
  /? (2 * (1 + (3 * kappa - 2 * mu) / (2 * (3 * kappa + mu))))
  = Ok mu.
Proof.
  intros Hk Hs. rewrite one_plus_nu_of_kappa_mu by done.
  rewrite py_div_Ok.
  - f_equal. field. solve_neq_0.
  - apply Qcmult_neq_0; [solve_neq_0|]. apply Qcdiv_neq_0; solve_neq_0.
Qed.

(** From [(E, nu)] to [(kappa, mu)] and back. *)
Lemma three_kappa_plus_mu_of_E_nu (E nu : Qc) :
  nu <> 1 / 2 -> nu <> -1 ->
  3 * (E / (3 * (1 - 2 * nu))) + E / (2 * (1 + nu))
  = 3 * E / (2 * ((1 - 2 * nu) * (1 + nu))).
Proof. intros H1 H2. field. solve_neq_0. Qed.

Lemma three_kappa_minus_two_mu_of_E_nu (E nu : Qc) :
  nu <> 1 / 2 -> nu <> -1 ->
  3 * (E / (3 * (1 - 2 * nu))) - 2 * (E / (2 * (1 + nu)))
  = 3 * E * nu / ((1 - 2 * nu) * (1 + nu)).
Proof. intros H1 H2. field. solve_neq_0. Qed.

Lemma E_round_trip (E nu : Qc) :
  E <> 0 -> nu <> 1 / 2 -> nu <> -1 ->
  9 * (E / (3 * (1 - 2 * nu))) * (E / (2 * (1 + nu)))
  /? (3 * (E / (3 * (1 - 2 * nu))) + E / (2 * (1 + nu)))
  = Ok E.
Proof.
  intros HE H1 H2. rewrite three_kappa_plus_mu_of_E_nu by done.
  rewrite py_div_Ok.
  - f_equal. field. solve_neq_0.
  - apply Qcdiv_neq_0; solve_neq_0.
Qed.

Lemma nu_round_trip (E nu : Qc) :
  E <> 0 -> nu <> 1 / 2 -> nu <> -1 ->
  (3 * (E / (3 * (1 - 2 * nu))) - 2 * (E / (2 * (1 + nu))))
  /? (2 * (3 * (E / (3 * (1 - 2 * nu))) + E / (2 * (1 + nu))))
  = Ok nu.
Proof.
  intros HE H1 H2.
  rewrite three_kappa_plus_mu_of_E_nu, three_kappa_minus_two_mu_of_E_nu by done.
  rewrite py_div_Ok.
  - f_equal. field. solve_neq_0.
  - apply Qcmult_neq_0; [solve_neq_0|]. apply Qcdiv_neq_0; solve_neq_0.
Qed.

Lemma constructed_consistent (J K : mat) (m : obj) :
  constructed J K m ->
  exists E nu kappa mu : Qc,
    attr_E m = Some E /\ attr_nu m = Some nu /\
    attr_kappa m = Some kappa /\ attr_mu m = Some mu /\
    E /? (3 * (1 - 2 * nu)) = Ok kappa /\
    E /? (2 * (1 + nu)) = Ok mu /\
    9 * kappa * mu /? (3 * kappa + mu) = Ok E /\
    (3 * kappa - 2 * mu) /? (2 * (3 * kappa + mu)) = Ok nu.
Proof.
  intros (self0 & E0 & nu0 & kappa0 & mu0 & Hinit).
  apply init_Ok_inv in Hinit
    as (E & nu & kappa & mu & -> & Hk & Hm & Hfrom).
  exists E, nu, kappa, mu. do 4 (split; [reflexivity|]).
  destruct Hfrom as [(_ & _ & H1 & H2 & -> & ->) | (_ & _ & _ & Hs & -> & ->)].
  - assert (HE : E <> 0).
    { intros ->. apply Hk. apply Qcdiv_0_l. }
    split; [apply py_div_Ok; solve_neq_0|].
    split; [apply py_div_Ok; solve_neq_0|].
    split; [by apply E_round_trip | by apply nu_round_trip].
  - split; [by apply kappa_round_trip|].
    split; [by apply mu_round_trip|].
    split; apply py_div_Ok; solve_neq_0.
Qed.

(** C7. For positive [kappa] and [mu], the constructor given
    [(kappa, mu)] succeeds and stores E = 9 kappa mu / (3 kappa + mu) and
    nu = (3 kappa - 2 mu) / (2 (3 kappa + mu)), from which
    E / (3 (1 - 2 nu)) gives back [kappa] and E / (2 (1 + nu)) gives back
    [mu]; and every successfully constructed instance, whichever pair it
    was given, stores four moduli that each conversion maps onto one
    another. *)
Theorem moduli_round_trip (J K : mat) :
  (forall (self0 : obj) (kappa mu : Qc),
     0 < kappa -> 0 < mu ->
     exists (m : obj) (E nu : Qc),
       __init__ J K None None (Some kappa) (Some mu) self0 = (Ok tt, m) /\
       attr_E m = Some E /\ attr_nu m = Some nu /\
       attr_kappa m = Some kappa /\ attr_mu m = Some mu /\
       E = 9 * kappa * mu / (3 * kappa + mu) /\
       nu = (3 * kappa - 2 * mu) / (2 * (3 * kappa + mu)) /\
       E /? (3 * (1 - 2 * nu)) = Ok kappa /\
       E /? (2 * (1 + nu)) = Ok mu) /\
  (forall m : obj,
     constructed J K m ->
     exists E nu kappa mu : Qc,
       attr_E m = Some E /\ attr_nu m = Some nu /\
       attr_kappa m = Some kappa /\ attr_mu m = Some mu /\
       E /? (3 * (1 - 2 * nu)) = Ok kappa /\
       E /? (2 * (1 + nu)) = Ok mu /\
       9 * kappa * mu /? (3 * kappa + mu) = Ok E /\
       (3 * kappa - 2 * mu) /? (2 * (3 * kappa + mu)) = Ok nu).
Proof.
  split.
  - intros self0 kappa mu Hk Hm.
    assert (Hk0 : kappa <> 0) by (apply not_eq_sym; by apply Qclt_not_eq).
    assert (Hm0 : mu <> 0) by (apply not_eq_sym; by apply Qclt_not_eq).
    assert (Hs : 3 * kappa + mu <> 0).
    { apply not_eq_sym, Qclt_not_eq, Qcplus_pos_pos; [|exact Hm].
      apply Qcmult_pos_pos; [reflexivity | exact Hk]. }
    eexists _, _, _. split; [apply init_kappa_mu_Ok; auto|].
    do 6 (split; [reflexivity|]).
    split; [by apply kappa_round_trip | by apply mu_round_trip].
  - apply constructed_consistent.
Qed.

Lemma moduli_round_trip_witness :
  (exists (m : obj) (E nu : Qc),
     __init__ J_iso K_iso None None (Some 1) (Some (3 / 2))
       (blank LinearElasticIsotropic) = (Ok tt, m) /\
     attr_E m = Some E /\ attr_nu m = Some nu /\
     attr_kappa m = Some 1 /\ attr_mu m = Some (3 / 2) /\
     E = 9 * 1 * (3 / 2) / (3 * 1 + 3 / 2) /\
     nu = (3 * 1 - 2 * (3 / 2)) / (2 * (3 * 1 + 3 / 2)) /\
     E /? (3 * (1 - 2 * nu)) = Ok 1 /\
     E /? (2 * (1 + nu)) = Ok (3 / 2)) /\
  (exists E nu kappa mu : Qc,
     attr_E m_sample = Some E /\ attr_nu m_sample = Some nu /\
     attr_kappa m_sample = Some kappa /\ attr_mu m_sample = Some mu /\
     E /? (3 * (1 - 2 * nu)) = Ok kappa /\
     E /? (2 * (1 + nu)) = Ok mu /\
     9 * kappa * mu /? (3 * kappa + mu) = Ok E /\
     (3 * kappa - 2 * mu) /? (2 * (3 * kappa + mu)) = Ok nu).
Proof.
  destruct (moduli_round_trip J_iso K_iso) as [Hpos Hall]. split.
  - apply Hpos; reflexivity.
  - apply Hall. apply m_sample_constructed.
Defined.

(** ** Which arguments the constructor accepts *)

Ltac case_py_div :=
  repeat match goal with
    | |- context [py_div ?x ?y] =>
        destruct (py_div_cases x y) as [[_ ->]|[_ ->]]; run_method
    end.

(** [kappa] and [mu] are not looked at once [E] and [nu] are given. *)
Lemma init_E_nu_precedence (J K : mat) (E nu : Qc) (kappa mu : option Qc) (self0 : obj) :
  __init__ J K (Some E) (Some nu) kappa mu self0
  = __init__ J K (Some E) (Some nu) None None self0.
Proof. reflexivity. Qed.

Lemma init_not_ValueError_E_nu (J K : mat) (E nu : Qc) (kappa mu : option Qc) (self0 : obj) :
  fst (__init__ J K (Some E) (Some nu) kappa mu self0) <> Raise ValueError.
Proof. unfold __init__. run_method. case_py_div; discriminate. Qed.

Lemma init_not_ValueError_kappa_mu (J K : mat) (E nu : option Qc) (kappa mu : Qc) (self0 : obj) :
  fst (__init__ J K E nu (Some kappa) (Some mu) self0) <> Raise ValueError.
Proof.
  destruct E as [E|]; [destruct nu as [nu|]|].
  - apply init_not_ValueError_E_nu.
  - unfold __init__. run_method. case_py_div; discriminate.
  - unfold __init__. run_method. case_py_div; discriminate.
Qed.

Lemma init_ValueError (J K : mat) (E nu kappa mu : option Qc) (self0 : obj) :
  (E = None \/ nu = None) -> (kappa = None \/ mu = None) ->
  __init__ J K E nu kappa mu self0 = (Raise ValueError, self0).
Proof.
  intros HE Hk.
  destruct E, nu, kappa, mu; try reflexivity;
    destruct HE; destruct Hk; discriminate.
Qed.

(** C8. [__init__] raises [ValueError] exactly when neither [(E, nu)] nor
    [(kappa, mu)] is fully provided, and then has assigned no attribute
    of [self]; when both pairs are provided, [(E, nu)] takes precedence:
    the call does what it does without [(kappa, mu)], and the [kappa] and
    [mu] it stores are the ones computed from [E] and [nu]. *)
Theorem init_raises_ValueError_iff
    (J K : mat) (E nu kappa mu : option Qc) (self0 : obj) :
  (fst (__init__ J K E nu kappa mu self0) = Raise ValueError
   <-> (E = None \/ nu = None) /\ (kappa = None \/ mu = None)) /\
  (fst (__init__ J K E nu kappa mu self0) = Raise ValueError ->
   snd (__init__ J K E nu kappa mu self0) = self0) /\
  (forall E' nu' kappa' mu' : Qc,
     __init__ J K (Some E') (Some nu') (Some kappa') (Some mu') self0
     = __init__ J K (Some E') (Some nu') None None self0 /\
     (E' <> 0 -> nu' <> 1 / 2 -> nu' <> -1 ->
      exists m : obj,
        __init__ J K (Some E') (Some nu') (Some kappa') (Some mu') self0
        = (Ok tt, m) /\
        attr_E m = Some E' /\ attr_nu m = Some nu' /\
        attr_kappa m = Some (E' / (3 * (1 - 2 * nu'))) /\
        attr_mu m = Some (E' / (2 * (1 + nu'))))).
Proof.
  assert (Hiff : fst (__init__ J K E nu kappa mu self0) = Raise ValueError
                 <-> (E = None \/ nu = None) /\ (kappa = None \/ mu = None)).
  { split.
    - intros Hraise. split.
      + destruct E as [E'|]; [|by left]. destruct nu as [nu'|]; [|by right].
        by apply init_not_ValueError_E_nu in Hraise.
      + destruct kappa as [kappa'|]; [|by left].
        destruct mu as [mu'|]; [|by right].
        by apply init_not_ValueError_kappa_mu in Hraise.
    - intros [HE Hk]. by rewrite init_ValueError. }
  split; [exact Hiff|]. split.
  - intros Hraise. apply Hiff in Hraise as [HE Hk].
    by rewrite init_ValueError.
  - intros E' nu' kappa' mu'. split; [apply init_E_nu_precedence|].
    intros HE H1 H2. eexists. split; [by apply init_E_nu_Ok|].
    repeat split.
Qed.

Lemma init_raises_ValueError_iff_witness :
  fst (__init__ J_iso K_iso (Some 3) None None (Some 1) (blank LinearElasticIsotropic))
  = Raise ValueError /\
  snd (__init__ J_iso K_iso (Some 3) None None (Some 1) (blank LinearElasticIsotropic))
  = blank LinearElasticIsotropic /\
  exists m : obj,
    __init__ J_iso K_iso (Some 3) (Some 0) (Some 2) (Some 2) (blank LinearElasticIsotropic)
    = (Ok tt, m) /\
    attr_E m = Some 3 /\ attr_nu m = Some 0 /\
    attr_kappa m = Some (3 / (3 * (1 - 2 * 0))) /\
    attr_mu m = Some (3 / (2 * (1 + 0))).
Proof.
  destruct (init_raises_ValueError_iff J_iso K_iso (Some 3) None None (Some 1)
              (blank LinearElasticIsotropic)) as (Hiff & Hframe & Hprec).
  assert (Hraise : fst (__init__ J_iso K_iso (Some 3) None None (Some 1)
                          (blank LinearElasticIsotropic)) = Raise ValueError).
  { apply Hiff. split; [by right | by left]. }
  split; [exact Hraise|]. split; [by apply Hframe|].
  apply (Hprec 3 0 2 2); discriminate.
Defined.

(** ** The subclass *)

(** No inherited method other than [compute_C] asks for the class of
    [self]: run on an object of another class, each does the same and
    leaves the class in place. *)
Lemma init_set_cls
    (J K : mat) (E nu kappa mu : option Qc) (self0 : obj) (c : klass) :
  __init__ J K E nu kappa mu (set_cls c self0)
  = (fst (__init__ J K E nu kappa mu self0),
     set_cls c (snd (__init__ J K E nu kappa mu self0))).
Proof.
  destruct self0 as [c0 aE anu ak am aC aS].
  destruct E as [E|], nu as [nu|], kappa as [kappa|], mu as [mu|];
    unfold __init__; run_method; case_py_div; reflexivity.
Qed.

Lemma constitutive_update_set_cls
    (eps : vec) (state : gmap string ndarray) (dt : Qc) (m : obj) (c : klass) :
  constitutive_update eps state dt (set_cls c m)
  = (fst (constitutive_update eps state dt m),
     set_cls c (snd (constitutive_update eps state dt m))).
Proof.
  destruct m as [c0 aE anu ak am aC aS].
  unfold constitutive_update. run_method.
  destruct aC as [C|]; [|reflexivity].
  destruct (jnp_dot C eps); reflexivity.
Qed.

Lemma compute_C_plane_stress_set_cls (m : obj) (c : klass) :
  compute_C_plane_stress (set_cls c m)
  = (fst (compute_C_plane_stress m), set_cls c (snd (compute_C_plane_stress m))).
Proof.
  destruct m as [c0 aE anu ak am aC aS].
  unfold compute_C_plane_stress. run_method.
  destruct aE as [E|]; [|reflexivity]. destruct anu as [nu|]; [|reflexivity].
  case_py_div; reflexivity.
Qed.

(** C9. For [(E, nu)] that the constructor accepts, the plane-stress
    instance built from the same arguments stores the same [E], [nu],
    [kappa], [mu], [C] and [S] as the base-class instance, and its
    [constitutive_update] (and [compute_C_plane_stress]) returns the same
    on every input: the override of [get_Lame_parameters] is reached
    from [compute_C] only. *)
Theorem plane_stress_subclass_same_state
    (J K : mat) (self0 m : obj) (E nu : Qc) (kappa mu : option Qc) :
  cls self0 = LinearElasticIsotropic ->
  __init__ J K (Some E) (Some nu) kappa mu self0 = (Ok tt, m) ->
  exists m' : obj,
    __init__ J K (Some E) (Some nu) kappa mu
      (set_cls PlaneStressLinearElasticIsotropic self0) = (Ok tt, m') /\
    cls m = LinearElasticIsotropic /\
    cls m' = PlaneStressLinearElasticIsotropic /\
    attr_E m' = attr_E m /\ attr_nu m' = attr_nu m /\
    attr_kappa m' = attr_kappa m /\ attr_mu m' = attr_mu m /\
    attr_C m' = attr_C m /\ attr_S m' = attr_S m /\
    (forall (eps : vec) (state : gmap string ndarray) (dt : Qc),
       fst (constitutive_update eps state dt m')
       = fst (constitutive_update eps state dt m)) /\
    fst (compute_C_plane_stress m') = fst (compute_C_plane_stress m).
Proof.
  intros Hcls Hinit.
  exists (set_cls PlaneStressLinearElasticIsotropic m).
  split; [by rewrite init_set_cls, Hinit|].
  split.
  { apply init_Ok_inv in Hinit as (? & ? & ? & ? & -> & _). exact Hcls. }
  do 7 (split; [reflexivity|]). split.
  - intros eps state dt. by rewrite constitutive_update_set_cls.
  - by rewrite compute_C_plane_stress_set_cls.
Qed.

Lemma plane_stress_subclass_same_state_witness :
  exists m' : obj,
    __init__ J_iso K_iso (Some 3) (Some 0) None None
      (set_cls PlaneStressLinearElasticIsotropic (blank LinearElasticIsotropic))
    = (Ok tt, m') /\
    cls m_sample = LinearElasticIsotropic /\
    cls m' = PlaneStressLinearElasticIsotropic /\
    attr_E m' = attr_E m_sample /\ attr_nu m' = attr_nu m_sample /\
    attr_kappa m' = attr_kappa m_sample /\ attr_mu m' = attr_mu m_sample /\
    attr_C m' = attr_C m_sample /\ attr_S m' = attr_S m_sample /\
    (forall (eps : vec) (state : gmap string ndarray) (dt : Qc),
       fst (constitutive_update eps state dt m')
       = fst (constitutive_update eps state dt m_sample)) /\
    fst (compute_C_plane_stress m') = fst (compute_C_plane_stress m_sample).
Proof.
  apply (plane_stress_subclass_same_state J_iso K_iso (blank LinearElasticIsotropic)).
  - reflexivity.
  - vm_compute. reflexivity.
Defined.

(** The two classes do differ on [compute_C]: with the sample projectors,
    [E = 3] and [nu = 1/3], the upper-left entries are not the same. *)
Example compute_C_depends_on_class :
  fst (compute_C J_iso K_iso 3 (1 / 3) m_sample)
  <> fst (compute_C J_iso K_iso 3 (1 / 3)
            (set_cls PlaneStressLinearElasticIsotropic m_sample)).
Proof. vm_compute. discriminate. Qed.

(** * Further properties *)

(** ** Outcomes of the constructor *)

Lemma half_of_two : 1 - 2 * (1 / 2) = 0.
Proof. field. solve_neq_0. Qed.

(** Lines 34-35 raise before anything is assigned. *)
Lemma init_E_nu_singular
    (J K : mat) (E nu : Qc) (kappa mu : option Qc) (self0 : obj) :
  nu = 1 / 2 \/ nu = -1 ->
  __init__ J K (Some E) (Some nu) kappa mu self0 = (Raise ZeroDivisionError, self0).
Proof.
  intros Hnu. unfold __init__. run_method.
  destruct (decide (nu = 1 / 2)) as [-> | H1].
  - rewrite (py_div_Raise E) by (rewrite half_of_two; ring). reflexivity.
  - destruct Hnu as [? | ->]; [contradiction|].
    rewrite (py_div_Ok E (3 * (1 - 2 * -1))) by solve_neq_0.
    rewrite (py_div_Raise E (2 * (1 + -1))) by ring. reflexivity.
Qed.

(** With [E = 0] the moduli are computed and assigned, and line 51
    raises on [1 / (3 * self.kappa)]. *)
Lemma init_E_zero
    (J K : mat) (nu : Qc) (kappa mu : option Qc) (self0 : obj) :
  nu <> 1 / 2 -> nu <> -1 ->
  __init__ J K (Some 0) (Some nu) kappa mu self0
  = (Raise ZeroDivisionError,
     mk_obj (cls self0) (Some 0) (Some nu) (Some 0) (Some 0)
       (Some (3 * 0 .* J .+ 2 * 0 .* K)) (attr_S self0)).
Proof.
  intros H1 H2. unfold __init__. run_method.
  rewrite (py_div_Ok 0 (3 * (1 - 2 * nu))) by solve_neq_0.
  rewrite (py_div_Ok 0 (2 * (1 + nu))) by solve_neq_0.
  run_method. rewrite !Qcdiv_0_l.
  rewrite (py_div_Raise 1 (3 * 0)) by ring. reflexivity.
Qed.

Lemma init_kappa_mu_only
    (J K : mat) (E nu : option Qc) (kappa mu : Qc) (self0 : obj) :
  E = None \/ nu = None ->
  __init__ J K E nu (Some kappa) (Some mu) self0
  = __init__ J K None None (Some kappa) (Some mu) self0.
Proof. intros [-> | ->]; [reflexivity | by destruct E]. Qed.

(** Lines 39-40 raise before anything is assigned. *)
Lemma init_kappa_mu_singular
    (J K : mat) (E nu : option Qc) (kappa mu : Qc) (self0 : obj) :
  E = None \/ nu = None ->
  3 * kappa + mu = 0 ->
  __init__ J K E nu (Some kappa) (Some mu) self0 = (Raise ZeroDivisionError, self0).
Proof.
  intros HN Hs. rewrite init_kappa_mu_only by done.
  unfold __init__. run_method.
  rewrite (py_div_Raise _ (3 * kappa + mu)) by done. reflexivity.
Qed.

(** With [kappa = 0] or [mu = 0] the moduli are assigned and line 51
    raises. *)
Lemma init_kappa_mu_zero
    (J K : mat) (E nu : option Qc) (kappa mu : Qc) (self0 : obj) :
  E = None \/ nu = None ->
  3 * kappa + mu <> 0 ->
  kappa = 0 \/ mu = 0 ->
  __init__ J K E nu (Some kappa) (Some mu) self0
  = (Raise ZeroDivisionError,
     mk_obj (cls self0)
       (Some (9 * kappa * mu / (3 * kappa + mu)))
       (Some ((3 * kappa - 2 * mu) / (2 * (3 * kappa + mu))))
       (Some kappa) (Some mu)
       (Some (3 * kappa .* J .+ 2 * mu .* K)) (attr_S self0)).
Proof.
  intros HN Hs Hz. rewrite init_kappa_mu_only by done.
  unfold __init__. run_method.
  rewrite (py_div_Ok _ (3 * kappa + mu)) by done.
  rewrite (py_div_Ok _ (2 * (3 * kappa + mu))) by solve_neq_0.
  run_method.
  destruct (decide (kappa = 0)) as [Hk | Hk].
  - rewrite (py_div_Raise 1 (3 * kappa)) by (rewrite Hk; ring). reflexivity.
  - destruct Hz as [? | Hm]; [contradiction|].
    rewrite (py_div_Ok 1 (3 * kappa)) by solve_neq_0.
    rewrite (py_div_Raise 1 (2 * mu)) by (rewrite Hm; ring). reflexivity.
Qed.



(** X2. Given [(kappa, mu)] and not both of [E] and [nu], the constructor
    succeeds exactly when [kappa], [mu] and [3 kappa + mu] are all other
    than [0], and raises [ZeroDivisionError] in every other case. *)
Theorem init_kappa_mu_outcome
    (J K : mat) (E nu : option Qc) (kappa mu : Qc) (self0 : obj) :
  E = None \/ nu = None ->
  (fst (__init__ J K E nu (Some kappa) (Some mu) self0) = Ok tt
   <-> kappa <> 0 /\ mu <> 0 /\ 3 * kappa + mu <> 0) /\
  (fst (__init__ J K E nu (Some kappa) (Some mu) self0) = Raise ZeroDivisionError
   <-> kappa = 0 \/ mu = 0 \/ 3 * kappa + mu = 0).
Proof.
  intros HN.
  destruct (decide (3 * kappa + mu = 0)) as [Hs | Hs].
  { rewrite init_kappa_mu_singular by auto. split; split; try discriminate; auto.
    intros (_ & _ & ?). contradiction. }
  destruct (decide (kappa = 0)) as [Hk | Hk].
  { rewrite init_kappa_mu_zero by auto. split; split; try discriminate; auto.
    intros (? & _). contradiction. }
  destruct (decide (mu = 0)) as [Hm | Hm].
  { rewrite init_kappa_mu_zero by auto. split; split; try discriminate; auto.
    intros (_ & ? & _). contradiction. }
  rewrite init_kappa_mu_Ok by done. split; split; try discriminate; auto.
  intros [? | [? | ?]]; contradiction.
Qed.

Lemma init_kappa_mu_outcome_witness :
  (fst (__init__ J_iso K_iso None (Some 1) (Some 1) (Some (0 - 3))
          (blank LinearElasticIsotropic)) = Ok tt
   <-> (1 : Qc) <> 0 /\ 0 - 3 <> 0 /\ 3 * 1 + (0 - 3) <> 0) /\
  (fst (__init__ J_iso K_iso None (Some 1) (Some 1) (Some (0 - 3))
          (blank LinearElasticIsotropic)) = Raise ZeroDivisionError
   <-> (1 : Qc) = 0 \/ 0 - 3 = 0 \/ 3 * 1 + (0 - 3) = 0).
Proof.
  apply init_kappa_mu_outcome. by left.
Defined.

(** X3. A call that fails on line 51 leaves a half-initialised object:
    with [E = 0] (and [nu] regular), or with [kappa = 0] or [mu = 0] (and
    [3 kappa + mu] not [0]), [E], [nu], [kappa], [mu] and [C] have been
    assigned when [ZeroDivisionError] is raised, and [S] has not. *)
Theorem init_fails_half_built (J K : mat) (self0 : obj) :
  (forall nu : Qc,
     nu <> 1 / 2 -> nu <> -1 ->
     __init__ J K (Some 0) (Some nu) None None self0
     = (Raise ZeroDivisionError,
        mk_obj (cls self0) (Some 0) (Some nu) (Some 0) (Some 0)
          (Some (3 * 0 .* J .+ 2 * 0 .* K)) (attr_S self0))) /\
  (forall kappa mu : Qc,
     3 * kappa + mu <> 0 -> kappa = 0 \/ mu = 0 ->
     __init__ J K None None (Some kappa) (Some mu) self0
     = (Raise ZeroDivisionError,
        mk_obj (cls self0)
          (Some (9 * kappa * mu / (3 * kappa + mu)))
          (Some ((3 * kappa - 2 * mu) / (2 * (3 * kappa + mu))))
          (Some kappa) (Some mu)
          (Some (3 * kappa .* J .+ 2 * mu .* K)) (attr_S self0))).
Proof.
  split.
  - intros nu H1 H2. by apply init_E_zero.
  - intros kappa mu Hs Hz. apply init_kappa_mu_zero; auto.
Qed.

Lemma init_fails_half_built_witness :
  attr_C (snd (__init__ J_iso K_iso (Some 0) (Some 0) None None
                 (blank LinearElasticIsotropic)))
  = Some (3 * 0 .* J_iso .+ 2 * 0 .* K_iso) /\
  attr_S (snd (__init__ J_iso K_iso None None (Some 1) (Some 0)
                 (blank LinearElasticIsotropic))) = None.
Proof.
  destruct (init_fails_half_built J_iso K_iso (blank LinearElasticIsotropic))
    as [HE Hk]. split.
  - rewrite (HE 0) by discriminate. reflexivity.
  - rewrite (Hk 1 0); [reflexivity | discriminate | by right].
Defined.

(** X4. A call that fails on lines 34-35 or 39-40, where the moduli are
    converted, has assigned nothing: [self] is as it was. *)
Theorem init_fails_untouched (J K : mat) (self0 : obj) :
  (forall (E nu : Qc) (kappa mu : option Qc),
     nu = 1 / 2 \/ nu = -1 ->
     __init__ J K (Some E) (Some nu) kappa mu self0
     = (Raise ZeroDivisionError, self0)) /\
  (forall (E nu : option Qc) (kappa mu : Qc),
     E = None \/ nu = None -> 3 * kappa + mu = 0 ->
     __init__ J K E nu (Some kappa) (Some mu) self0
     = (Raise ZeroDivisionError, self0)).
Proof.
  split.
  - intros. by apply init_E_nu_singular.
  - intros. by apply init_kappa_mu_singular.
Qed.

Lemma init_fails_untouched_witness :
  __init__ J_iso K_iso (Some 3) (Some (1 / 2)) None None (blank LinearElasticIsotropic)
  = (Raise ZeroDivisionError, blank LinearElasticIsotropic) /\
  __init__ J_iso K_iso None None (Some 1) (Some (0 - 3)) (blank LinearElasticIsotropic)
  = (Raise ZeroDivisionError, blank LinearElasticIsotropic).
Proof.
  destruct (init_fails_untouched J_iso K_iso (blank LinearElasticIsotropic))
    as [HE Hk]. split.
  - apply HE. by left.
  - apply Hk; [by left | reflexivity].
Defined.

(** ** More on arrays *)

Lemma jnp_dot_Raise (A : mat) (x : vec) :
  Exists (fun row => length row <> length x) A -> jnp_dot A x = Raise TypeError.
Proof.
  intros Hex. unfold jnp_dot.
  assert (forallb (fun row => Nat.eqb (length row) (length x)) A = false) as ->;
    [|reflexivity].
  apply not_true_is_false. intros Hall.
  rewrite forallb_forall in Hall. apply Exists_exists in Hex as (row & Hin & Hlen).
  apply Hlen, Nat.eqb_eq, Hall. by apply list_elem_of_In.
Qed.

Lemma inner_lin (row u v : vec) (a b : Qc) :
  length u = length v ->
  inner row (vec_add (vec_scale a u) (vec_scale b v))
  = a * inner row u + b * inner row v.
Proof.
  unfold inner, vec_add, vec_scale. revert u v.
  induction row as [|r row IH]; intros u v Hlen; simpl; [ring|].
  destruct u as [|x u], v as [|y v]; simpl in *; try discriminate; [ring|].
  rewrite IH by congruence. ring.
Qed.

Lemma matvec_lin (A : mat) (u v : vec) (a b : Qc) :
  length u = length v ->
  matvec A (vec_add (vec_scale a u) (vec_scale b v))
  = vec_add (vec_scale a (matvec A u)) (vec_scale b (matvec A v)).
Proof.
  intros Hlen. unfold matvec.
  induction A as [|row A IH]; simpl; [reflexivity|].
  rewrite inner_lin by done. unfold vec_add, vec_scale in *. simpl.
  by rewrite IH.
Qed.

Lemma inner_lincomb (r1 r2 x : vec) (a b : Qc) :
  length r1 = length r2 ->
  inner (zip_with Qcplus (map (Qcmult a) r1) (map (Qcmult b) r2)) x
  = a * inner r1 x + b * inner r2 x.
Proof.
  unfold inner. revert r2 x.
  induction r1 as [|p r1 IH]; intros r2 x Hlen;
    destruct r2 as [|q r2]; simpl in *; try discriminate; [ring|].
  destruct x as [|y x]; simpl; [ring|].
  rewrite IH by congruence. ring.
Qed.

Lemma matvec_lincomb (n m : nat) (A B : mat) (x : vec) (a b : Qc) :
  mat_shape n m A -> mat_shape n m B ->
  matvec (a .* A .+ b .* B) x
  = vec_add (vec_scale a (matvec A x)) (vec_scale b (matvec B x)).
Proof.
  intros [_ HA] [_ HB]. unfold matvec, mat_add, mat_scale, vec_add, vec_scale.
  revert B HB. induction HA as [|r1 A Hr1 HA IH]; intros B HB; [reflexivity|].
  destruct HB as [|r2 B Hr2 HB]; [reflexivity|]. simpl.
  rewrite inner_lincomb by congruence. by rewrite IH.
Qed.

Lemma matvec_length (A : mat) (x : vec) : length (matvec A x) = length A.
Proof. unfold matvec. apply length_map. Qed.

(** ** More on the update *)

(** X5. The update keeps no history: updating with [eps1] and then, on
    the state that came back, with [eps2], returns what updating the
    first state with [eps2] returns. *)
Theorem constitutive_update_overwrites
    (self : obj) (C : mat) (eps1 eps2 : vec)
    (state : gmap string ndarray) (dt1 dt2 : Qc) :
  attr_C self = Some C ->
  Forall (fun row => length row = length eps1) C ->
  Forall (fun row => length row = length eps2) C ->
  exists (Ct : pyval) (state1 state2 : gmap string ndarray),
    constitutive_update eps1 state dt1 self = (Ok [Ct; PDict state1], self) /\
    constitutive_update eps2 state1 dt2 self = (Ok [Ct; PDict state2], self) /\
    constitutive_update eps2 state dt2 self = (Ok [Ct; PDict state2], self).
Proof.
  intros HC H1 H2.
  assert (Hdot1 : jnp_dot C eps1 = Ok (matvec C eps1))
    by (by apply (jnp_dot_Ok (length C) (length eps1))).
  assert (Hdot2 : jnp_dot C eps2 = Ok (matvec C eps2))
    by (by apply (jnp_dot_Ok (length C) (length eps2))).
  exists (PArray (Matrix C)),
    (<["Stress" := Vector (matvec C eps1)]> state),
    (<["Stress" := Vector (matvec C eps2)]> state).
  split; [by apply constitutive_update_Ok|]. split.
  - rewrite (constitutive_update_Ok self C eps2 (matvec C eps2)) by done.
    by rewrite insert_insert_eq.
  - by apply constitutive_update_Ok.
Qed.

Lemma constitutive_update_overwrites_witness :
  exists (Ct : pyval) (state1 state2 : gmap string ndarray),
    constitutive_update eps_sample state_sample 1 m_sample
    = (Ok [Ct; PDict state1], m_sample) /\
    constitutive_update eps_sample' state1 2 m_sample
    = (Ok [Ct; PDict state2], m_sample) /\
    constitutive_update eps_sample' state_sample 2 m_sample
    = (Ok [Ct; PDict state2], m_sample).
Proof.
  apply (constitutive_update_overwrites m_sample
           (3 * 1 .* J_iso .+ 2 * (3 / 2) .* K_iso)).
  - vm_compute. reflexivity.
  - vm_compute. repeat constructor.
  - vm_compute. repeat constructor.
Defined.

(** X6. The update fails without touching [self]: with [AttributeError]
    when [self.C] has not been assigned, and with [TypeError] when some
    row of [self.C] has not the length of [eps]. *)
Theorem constitutive_update_raises
    (self : obj) (eps : vec) (state : gmap string ndarray) (dt : Qc) :
  (attr_C self = None ->
   constitutive_update eps state dt self = (Raise AttributeError, self)) /\
  (forall C : mat,
     attr_C self = Some C ->
     Exists (fun row => length row <> length eps) C ->
     constitutive_update eps state dt self = (Raise TypeError, self)).
Proof.
  split.
  - intros HC. unfold constitutive_update. unfold_method. by rewrite HC.
  - intros C HC Hex. unfold constitutive_update. unfold_method.
    by rewrite HC, jnp_dot_Raise.
Qed.

Lemma constitutive_update_raises_witness :
  constitutive_update eps_sample state_sample 1 (blank LinearElasticIsotropic)
  = (Raise AttributeError, blank LinearElasticIsotropic) /\
  constitutive_update [1; 2; 3] state_sample 1 m_sample = (Raise TypeError, m_sample).
Proof.
  split.
  - by apply (constitutive_update_raises (blank LinearElasticIsotropic)).
  - apply (proj2 (constitutive_update_raises m_sample [1; 2; 3] state_sample 1)
             (3 * 1 .* J_iso .+ 2 * (3 / 2) .* K_iso)).
    + vm_compute. reflexivity.
    + apply Exists_cons_hd. vm_compute. discriminate.
Defined.

Lemma init_Ok_attrs (J K : mat) (self0 m : obj) (E nu kappa mu : option Qc) :
  __init__ J K E nu kappa mu self0 = (Ok tt, m) ->
  exists kappa' mu' : Qc,
    kappa' <> 0 /\ mu' <> 0 /\
    attr_kappa m = Some kappa' /\ attr_mu m = Some mu' /\
    attr_C m = Some (3 * kappa' .* J .+ 2 * mu' .* K) /\
    attr_S m = Some (1 / (3 * kappa') .* J .+ 1 / (2 * mu') .* K).
Proof.
  intros Hinit.
  apply init_Ok_inv in Hinit as (E' & nu' & kappa' & mu' & -> & Hk & Hm & _).
  exists kappa', mu'. repeat split; assumption.
Qed.

(** X7. The stress of a constructed instance splits as
    3 kappa (J eps) + 2 mu (K eps), with the stored [kappa] and [mu]. *)
Theorem stress_splits_on_J_and_K
    (d : nat) (J K : mat) (self0 m : obj) (E nu kappa mu : option Qc)
    (eps : vec) (state : gmap string ndarray) (dt : Qc) :
  mat_shape d d J -> mat_shape d d K ->
  __init__ J K E nu kappa mu self0 = (Ok tt, m) ->
  length eps = d ->
  exists (kappa' mu' : Qc) (Ct : pyval) (state' : gmap string ndarray),
    attr_kappa m = Some kappa' /\ attr_mu m = Some mu' /\
    constitutive_update eps state dt m = (Ok [Ct; PDict state'], m) /\
    state' !! "Stress"
    = Some (Vector (vec_add (vec_scale (3 * kappa') (matvec J eps))
                            (vec_scale (2 * mu') (matvec K eps)))).
Proof.
  intros HJ HK Hinit Heps.
  apply init_Ok_attrs in Hinit as (kappa' & mu' & _ & _ & Hk & Hm & HC & _).
  exists kappa', mu', (PArray (Matrix (3 * kappa' .* J .+ 2 * mu' .* K))),
    (<["Stress" := Vector (matvec (3 * kappa' .* J .+ 2 * mu' .* K) eps)]> state).
  split; [exact Hk|]. split; [exact Hm|]. split.
  - apply constitutive_update_Ok; [exact HC|].
    apply (jnp_dot_Ok d d); [by apply stiffness_shape | exact Heps].
  - rewrite lookup_insert_eq. by rewrite (matvec_lincomb d d).
Qed.

Lemma stress_splits_on_J_and_K_witness :
  exists (kappa' mu' : Qc) (Ct : pyval) (state' : gmap string ndarray),
    attr_kappa m_sample = Some kappa' /\ attr_mu m_sample = Some mu' /\
    constitutive_update eps_sample state_sample 1 m_sample
    = (Ok [Ct; PDict state'], m_sample) /\
    state' !! "Stress"
    = Some (Vector (vec_add (vec_scale (3 * kappa') (matvec J_iso eps_sample))
                            (vec_scale (2 * mu') (matvec K_iso eps_sample)))).
Proof.
  apply (stress_splits_on_J_and_K 6 J_iso K_iso (blank LinearElasticIsotropic)
           m_sample (Some 3) (Some 0) None None).
  - apply J_iso_shape.
  - apply K_iso_shape.
  - vm_compute. reflexivity.
  - reflexivity.
Defined.

(** X8. Superposition: the stress of the strain [a eps1 + b eps2] is
    [a] times the stress of [eps1] plus [b] times the stress of [eps2]. *)
Theorem stress_superposition
    (self : obj) (C : mat) (eps1 eps2 : vec) (a b : Qc)
    (state : gmap string ndarray) (dt : Qc) :
  attr_C self = Some C ->
  Forall (fun row => length row = length eps1) C ->
  length eps1 = length eps2 ->
  exists (Ct : pyval) (sig1 sig2 : vec) (state1 state2 state12 : gmap string ndarray),
    constitutive_update eps1 state dt self = (Ok [Ct; PDict state1], self) /\
    constitutive_update eps2 state dt self = (Ok [Ct; PDict state2], self) /\
    constitutive_update (vec_add (vec_scale a eps1) (vec_scale b eps2)) state dt self
    = (Ok [Ct; PDict state12], self) /\
    state1 !! "Stress" = Some (Vector sig1) /\
    state2 !! "Stress" = Some (Vector sig2) /\
    state12 !! "Stress"
    = Some (Vector (vec_add (vec_scale a sig1) (vec_scale b sig2))).
Proof.
  intros HC Hrows Hlen.
  assert (Hrows2 : Forall (fun row => length row = length eps2) C)
    by (by rewrite <- Hlen).
  assert (Hlen12 : length (vec_add (vec_scale a eps1) (vec_scale b eps2))
                   = length eps1).
  { unfold vec_add, vec_scale. rewrite length_zip_with, !length_map. lia. }
  exists (PArray (Matrix C)), (matvec C eps1), (matvec C eps2),
    (<["Stress" := Vector (matvec C eps1)]> state),
    (<["Stress" := Vector (matvec C eps2)]> state),
    (<["Stress" := Vector (matvec C (vec_add (vec_scale a eps1) (vec_scale b eps2)))]>
       state).
  split; [|split; [|split; [|split; [|split]]]].
  - apply constitutive_update_Ok; [exact HC|].
    by apply (jnp_dot_Ok (length C) (length eps1)).
  - apply constitutive_update_Ok; [exact HC|].
    by apply (jnp_dot_Ok (length C) (length eps2)).
  - apply constitutive_update_Ok; [exact HC|].
    apply (jnp_dot_Ok (length C) (length eps1)); [by split | exact Hlen12].
  - apply lookup_insert_eq.
  - apply lookup_insert_eq.
  - rewrite lookup_insert_eq. by rewrite matvec_lin.
Qed.

Lemma stress_superposition_witness :
  exists (Ct : pyval) (sig1 sig2 : vec) (state1 state2 state12 : gmap string ndarray),
    constitutive_update eps_sample state_sample 1 m_sample
    = (Ok [Ct; PDict state1], m_sample) /\
    constitutive_update eps_sample' state_sample 1 m_sample
    = (Ok [Ct; PDict state2], m_sample) /\
    constitutive_update (vec_add (vec_scale 2 eps_sample) (vec_scale 3 eps_sample'))
      state_sample 1 m_sample
    = (Ok [Ct; PDict state12], m_sample) /\
    state1 !! "Stress" = Some (Vector sig1) /\
    state2 !! "Stress" = Some (Vector sig2) /\
    state12 !! "Stress"
    = Some (Vector (vec_add (vec_scale 2 sig1) (vec_scale 3 sig2))).
Proof.
  apply (stress_superposition m_sample (3 * 1 .* J_iso .+ 2 * (3 / 2) .* K_iso)).
  - vm_compute. reflexivity.
  - vm_compute. repeat constructor.
  - reflexivity.
Defined.

(** ** Stiffness and compliance *)

Lemma vec_recombine (n : nat) (a a' b b' : Qc) (u v : vec) :
  length u = n -> length v = n -> a' * a = 1 -> b' * b = 1 ->
  vec_add
    (vec_scale a' (vec_add (vec_scale a u) (vec_scale b (repeat 0 n))))
    (vec_scale b' (vec_add (vec_scale a (repeat 0 n)) (vec_scale b v)))
  = vec_add u v.
Proof.
  intros Hu Hv Ha Hb. unfold vec_add, vec_scale. revert n v Hu Hv.
  induction u as [|x u IH]; intros n v Hu Hv;
    destruct v as [|y v]; simpl in *; subst n; try discriminate; [reflexivity|].
  simpl. rewrite IH by congruence. f_equal.
  assert (Hxy : a' * (a * x + b * 0) + b' * (a * 0 + b * y)
                = a' * a * x + b' * b * y) by ring.
  rewrite Hxy, Ha, Hb. ring.
Qed.

Section Projectors.

(** What the update relies on when [J] and [K] are the two complementary
    projectors of [d]-component vectors: each is idempotent, each
    annihilates the range of the other, and they add up to the identity. *)
Variable d : nat.
Variables J K : mat.
Hypothesis J_shape : mat_shape d d J.
Hypothesis K_shape : mat_shape d d K.
Hypothesis JJ : forall x : vec, length x = d -> matvec J (matvec J x) = matvec J x.
Hypothesis KK : forall x : vec, length x = d -> matvec K (matvec K x) = matvec K x.
Hypothesis JK : forall x : vec, length x = d -> matvec J (matvec K x) = repeat 0 d.
Hypothesis KJ : forall x : vec, length x = d -> matvec K (matvec J x) = repeat 0 d.
Hypothesis J_plus_K :
  forall x : vec, length x = d -> vec_add (matvec J x) (matvec K x) = x.

Lemma lincomb_inverse (a a' b b' : Qc) (x : vec) :
  length x = d -> a' * a = 1 -> b' * b = 1 ->
  matvec (a' .* J .+ b' .* K) (matvec (a .* J .+ b .* K) x) = x.
Proof.
  intros Hx Ha Hb.
  assert (HJx : length (matvec J x) = d) by (rewrite matvec_length; apply J_shape).
  assert (HKx : length (matvec K x) = d) by (rewrite matvec_length; apply K_shape).
  rewrite !(matvec_lincomb d d) by assumption.
  rewrite !matvec_lin by congruence.
  rewrite JJ, JK, KJ, KK by assumption.
  rewrite (vec_recombine d) by assumption.
  by apply J_plus_K.
Qed.

(** X9. With such [J] and [K], the compliance [S] that the constructor
    stores inverts the stiffness [C]: applying [S] to the stress [C x]
    gives back [x], and applying [C] to [S x] gives back [x]. *)
Theorem compliance_inverts_stiffness
    (self0 m : obj) (E nu kappa mu : option Qc) :
  __init__ J K E nu kappa mu self0 = (Ok tt, m) ->
  exists C S : mat,
    attr_C m = Some C /\ attr_S m = Some S /\
    forall x : vec,
      length x = d ->
      matvec S (matvec C x) = x /\ matvec C (matvec S x) = x.
Proof.
  intros Hinit.
  apply init_Ok_attrs in Hinit as (kappa' & mu' & Hk & Hm & _ & _ & HC & HS).
  eexists _, _. split; [exact HC|]. split; [exact HS|].
  intros x Hx. split; apply lincomb_inverse; trivial; field; solve_neq_0.
Qed.

End Projectors.

Ltac six_components x Hx :=
  do 6 (destruct x as [|? x]; [discriminate Hx|]);
  destruct x; [|discriminate Hx];
  cbv [matvec inner J_iso K_iso map fold_right zip_with vec_add repeat third];
  repeat (apply (f_equal2 cons)); try reflexivity; field; solve_neq_0.

Lemma J_iso_idempotent (x : vec) :
  length x = 6%nat -> matvec J_iso (matvec J_iso x) = matvec J_iso x.
Proof. intros Hx. six_components x Hx. Qed.

Lemma K_iso_idempotent (x : vec) :
  length x = 6%nat -> matvec K_iso (matvec K_iso x) = matvec K_iso x.
Proof. intros Hx. six_components x Hx. Qed.

Lemma J_iso_K_iso (x : vec) :
  length x = 6%nat -> matvec J_iso (matvec K_iso x) = repeat 0 6.
Proof. intros Hx. six_components x Hx. Qed.

Lemma K_iso_J_iso (x : vec) :
  length x = 6%nat -> matvec K_iso (matvec J_iso x) = repeat 0 6.
Proof. intros Hx. six_components x Hx. Qed.

Lemma J_iso_plus_K_iso (x : vec) :
  length x = 6%nat -> vec_add (matvec J_iso x) (matvec K_iso x) = x.
Proof. intros Hx. six_components x Hx. Qed.

Lemma compliance_inverts_stiffness_witness :
  exists C S : mat,
    attr_C m_sample = Some C /\ attr_S m_sample = Some S /\
    forall x : vec,
      length x = 6%nat ->
      matvec S (matvec C x) = x /\ matvec C (matvec S x) = x.
Proof.
  apply (compliance_inverts_stiffness 6 J_iso K_iso J_iso_shape K_iso_shape
           J_iso_idempotent K_iso_idempotent J_iso_K_iso K_iso_J_iso
           J_iso_plus_K_iso (blank LinearElasticIsotropic) m_sample
           (Some 3) (Some 0) None None).
  vm_compute. reflexivity.
Defined.

(** ** Outcomes of [compute_C] *)

Lemma Lame_singular (c : klass) (E nu : Qc) :
  nu = 1 / 2 \/ nu = -1 ->
  get_Lame_parameters_of c E nu = Raise ZeroDivisionError.
Proof.
  intros Hnu.
  destruct (decide (nu = -1)) as [-> | H2].
  - destruct c; cbv [get_Lame_parameters_of mbind mret result_bind result_ret];
      rewrite (py_div_Raise _ (1 + -1)) by ring; reflexivity.
  - destruct Hnu as [-> | ?]; [|contradiction].
    destruct c; cbv [get_Lame_parameters_of mbind mret result_bind result_ret];
      rewrite (py_div_Ok _ (1 + 1 / 2)) by solve_neq_0;
      rewrite (py_div_Raise _ (1 - 2 * (1 / 2))) by apply half_of_two;
      reflexivity.
Qed.

Lemma Lame_plane_stress (E nu : Qc) :
  E <> 0 -> nu <> 1 / 2 -> nu <> -1 -> nu <> 1 ->
  get_Lame_parameters_of PlaneStressLinearElasticIsotropic E nu
  = Ok (2 * (E / 2 / (1 + nu)) * (E * nu / (1 + nu) / (1 - 2 * nu))
        / (E * nu / (1 + nu) / (1 - 2 * nu) + 2 * (E / 2 / (1 + nu))),
        E / 2 / (1 + nu)).
Proof.
  intros HE H1 H2 H3.
  cbv [get_Lame_parameters_of mbind mret result_bind result_ret].
  rewrite (py_div_Ok (E * nu) (1 + nu)) by solve_neq_0.
  rewrite (py_div_Ok _ (1 - 2 * nu)) by solve_neq_0.
  rewrite (py_div_Ok (E / 2) (1 + nu)) by solve_neq_0.
  rewrite py_div_Ok by (by apply Lame_sum_neq_0).
  reflexivity.
Qed.

Lemma compute_C_of_Lame (J K : mat) (self : obj) (E nu : Qc) :
  compute_C J K E nu self
  = (match get_Lame_parameters_of (cls self) E nu with
     | Ok (lmbda, mu) => Ok (3 * (lmbda + 2 / 3 * mu) .* J .+ 2 * mu .* K)
     | Raise e => Raise e
     end, self).
Proof.
  unfold compute_C, get_Lame_parameters. unfold_method.
  destruct (get_Lame_parameters_of (cls self) E nu) as [[lmbda mu]|e]; reflexivity.
Qed.

(** X10. [compute_C(E, nu)] never assigns to [self] and raises nothing
    but [ZeroDivisionError]. On an instance of the base class it returns
    exactly when [nu] is neither [1/2] nor [-1]; on a plane-stress
    instance exactly when, besides, [E] is not [0] and [nu] is not [1]. *)
Theorem compute_C_outcome (J K : mat) (self : obj) (E nu : Qc) :
  snd (compute_C J K E nu self) = self /\
  ((exists C : mat, fst (compute_C J K E nu self) = Ok C) \/
   fst (compute_C J K E nu self) = Raise ZeroDivisionError) /\
  (cls self = LinearElasticIsotropic ->
   ((exists C : mat, fst (compute_C J K E nu self) = Ok C)
    <-> nu <> 1 / 2 /\ nu <> -1)) /\
  (cls self = PlaneStressLinearElasticIsotropic ->
   ((exists C : mat, fst (compute_C J K E nu self) = Ok C)
    <-> E <> 0 /\ nu <> 1 / 2 /\ nu <> -1 /\ nu <> 1)).
Proof.
  rewrite compute_C_of_Lame. cbv [fst snd]. split; [reflexivity|].
  destruct (decide (nu = 1 / 2)) as [H1 | H1].
  { rewrite Lame_singular by auto. split; [by right|].
    split; intros _; (split; [intros [? ?]; discriminate|]).
    - intros (? & _). contradiction.
    - intros (_ & ? & _). contradiction. }
  destruct (decide (nu = -1)) as [H2 | H2].
  { rewrite Lame_singular by auto. split; [by right|].
    split; intros _; (split; [intros [? ?]; discriminate|]).
    - intros (_ & ?). contradiction.
    - intros (_ & _ & ? & _). contradiction. }
  destruct (cls self) eqn:Hcls.
  - rewrite Lame_base by done. split; [left; eauto|].
    split; [|discriminate]. intros _. split; eauto.
  - destruct (decide (E = 0 \/ nu = 1)) as [Hz | Hz].
    + rewrite plane_stress_Lame_raises by done. split; [by right|].
      split; [discriminate|]. intros _. split; [intros [? ?]; discriminate|].
      intros (? & _ & _ & ?). destruct Hz; contradiction.
    + assert (HE : E <> 0) by tauto. assert (H3 : nu <> 1) by tauto.
      rewrite Lame_plane_stress by done. split; [left; eauto|].
      split; [discriminate|]. intros _. split; eauto.
Qed.

Lemma plane_stress_kappa (E nu : Qc) :
  E <> 0 -> nu <> 1 / 2 -> nu <> -1 -> nu <> 1 ->
  3 * (2 * (E / 2 / (1 + nu)) * (E * nu / (1 + nu) / (1 - 2 * nu))
       / (E * nu / (1 + nu) / (1 - 2 * nu) + 2 * (E / 2 / (1 + nu)))
       + 2 / 3 * (E / 2 / (1 + nu)))
  = E * (1 + 2 * nu) / (1 - nu ^ 2).
Proof.
  intros HE H1 H2 H3. rewrite plane_stress_lmbda by done.
  simpl. field. solve_neq_0.
Qed.

(** X11. On a plane-stress instance, for [E] other than [0] and [nu]
    other than [1/2], [-1] and [1], [compute_C(E, nu)] returns
    (E (1 + 2 nu) / (1 - nu^2)) J + (E / (1 + nu)) K. *)
Theorem compute_C_on_plane_stress (J K : mat) (self : obj) (E nu : Qc) :
  cls self = PlaneStressLinearElasticIsotropic ->
  E <> 0 -> nu <> 1 / 2 -> nu <> -1 -> nu <> 1 ->
  compute_C J K E nu self
  = (Ok (E * (1 + 2 * nu) / (1 - nu ^ 2) .* J .+ E / (1 + nu) .* K), self).
Proof.
  intros Hcls HE H1 H2 H3.
  rewrite compute_C_of_Lame, Hcls, Lame_plane_stress by done.
  rewrite plane_stress_kappa by done.
  assert (Hmu : 2 * (E / 2 / (1 + nu)) = E / (1 + nu)) by (field; solve_neq_0).
  by rewrite Hmu.
Qed.

Lemma compute_C_on_plane_stress_witness :
  compute_C J_iso K_iso 3 (1 / 3) (blank PlaneStressLinearElasticIsotropic)
  = (Ok (3 * (1 + 2 * (1 / 3)) / (1 - (1 / 3) ^ 2) .* J_iso
         .+ 3 / (1 + 1 / 3) .* K_iso),
     blank PlaneStressLinearElasticIsotropic).
Proof.
  apply compute_C_on_plane_stress; [reflexivity | discriminate ..].
Defined.

(** X12. The plane-stress stiffness is the one of the plane-stress Lame
    parameters: with (lambda, mu) what the override returns for [E] and
    [nu], [compute_C_plane_stress] on an instance with these [E] and [nu]
    returns [[lambda + 2 mu, lambda, 0], [lambda, lambda + 2 mu, 0],
    [0, 0, mu]]. *)
Theorem plane_stress_stiffness_of_Lame (self : obj) (E nu : Qc) :
  attr_E self = Some E -> attr_nu self = Some nu ->
  E <> 0 -> nu <> 1 / 2 -> nu <> -1 -> nu <> 1 ->
  exists lmbda mu : Qc,
    get_Lame_parameters_of PlaneStressLinearElasticIsotropic E nu
    = Ok (lmbda, mu) /\
    compute_C_plane_stress self
    = (Ok [[lmbda + 2 * mu; lmbda; 0];
           [lmbda; lmbda + 2 * mu; 0];
           [0; 0; mu]], self).
Proof.
  intros HsE Hsnu HE H1 H2 H3. eexists _, _.
  split; [by apply Lame_plane_stress|].
  rewrite (compute_C_plane_stress_Ok self E nu) by done.
  rewrite plane_stress_lmbda by done.
  assert (H11 : E / (1 - nu ^ 2)
                = E * nu / (1 - nu ^ 2) + 2 * (E / 2 / (1 + nu)))
    by (simpl; field; solve_neq_0).
  assert (H12 : E / (1 - nu ^ 2) * nu = E * nu / (1 - nu ^ 2))
    by (simpl; field; solve_neq_0).
  assert (H33 : E / (2 * (1 + nu)) = E / 2 / (1 + nu))
    by (field; solve_neq_0).
  rewrite H12, H33, <- H11. reflexivity.
Qed.

Lemma plane_stress_stiffness_of_Lame_witness :
  exists lmbda mu : Qc,
    get_Lame_parameters_of PlaneStressLinearElasticIsotropic 3 0
    = Ok (lmbda, mu) /\
    compute_C_plane_stress m_sample
    = (Ok [[lmbda + 2 * mu; lmbda; 0];
           [lmbda; lmbda + 2 * mu; 0];
           [0; 0; mu]], m_sample).
Proof.
  apply plane_stress_stiffness_of_Lame;
    [vm_compute; reflexivity | vm_compute; reflexivity | discriminate ..].
Defined.

Lemma compute_C_outcome_witness :
  fst (compute_C J_iso K_iso 0 0 (blank PlaneStressLinearElasticIsotropic))
  = Raise ZeroDivisionError /\
  exists C : mat,
    fst (compute_C J_iso K_iso 0 0 (blank LinearElasticIsotropic)) = Ok C.
Proof.
  split.
  - destruct (compute_C_outcome J_iso K_iso
                (blank PlaneStressLinearElasticIsotropic) 0 0)
      as (_ & [Hok | Hraise] & _ & Hps); [|exact Hraise].
    apply (Hps eq_refl) in Hok as (HE & _). by contradiction HE.
  - destruct (compute_C_outcome J_iso K_iso (blank LinearElasticIsotropic) 0 0)
      as (_ & _ & Hbase & _).
    apply (Hbase eq_refl). split; discriminate.
Defined.

(** ** Symmetry *)

Lemma entry_mat_scale (c : Qc) (A : mat) (i j : nat) :
  entry (c .* A) i j = Qcmult c <$> entry A i j.
Proof.
  unfold entry, mat_scale, mat in *.
  change (map (map (Qcmult c)) A) with (fmap (M := list) (map (Qcmult c)) A).
  rewrite list_lookup_fmap. destruct (A !! i) as [row|]; simpl; [|reflexivity].
  change (map (Qcmult c) row) with (Qcmult c <$> row).
  by rewrite list_lookup_fmap.
Qed.

Lemma entry_mat_add (A B : mat) (i j : nat) :
  entry (A .+ B) i j
  = a ← entry A i j; b ← entry B i j; Some (a + b).
Proof.
  unfold entry, mat_add, mat in *. rewrite lookup_zip_with.
  destruct (A !! i) as [ra|]; simpl; [|reflexivity].
  destruct (B !! i) as [rb|]; simpl; [|by destruct (ra !! j)].
  rewrite lookup_zip_with. reflexivity.
Qed.

Lemma stiffness_symmetric (J K : mat) (a b : Qc) :
  symmetric J -> symmetric K -> symmetric (a .* J .+ b .* K).
Proof.
  intros HJ HK i j.
  by rewrite !entry_mat_add, !entry_mat_scale, (HJ i j), (HK i j).
Qed.

(** X13. When [J] and [K] are symmetric, so are the stiffness [C] and the
    compliance [S] that the constructor stores. *)
Theorem init_stores_symmetric
    (J K : mat) (self0 m : obj) (E nu kappa mu : option Qc) :
  symmetric J -> symmetric K ->
  __init__ J K E nu kappa mu self0 = (Ok tt, m) ->
  exists C S : mat,
    attr_C m = Some C /\ attr_S m = Some S /\ symmetric C /\ symmetric S.
Proof.
  intros HJ HK Hinit.
  apply init_Ok_attrs in Hinit as (kappa' & mu' & _ & _ & _ & _ & HC & HS).
  eexists _, _. split; [exact HC|]. split; [exact HS|].
  split; by apply stiffness_symmetric.
Qed.

Lemma J_iso_symmetric : symmetric J_iso.
Proof.
  intros i j. unfold entry.
  do 6 (destruct i as [|i]; [do 6 (destruct j as [|j]; [reflexivity|]);
                             by destruct j|]).
  simpl. do 6 (destruct j as [|j]; [by destruct i|]). reflexivity.
Qed.

Lemma K_iso_symmetric : symmetric K_iso.
Proof.
  intros i j. unfold entry.
  do 6 (destruct i as [|i]; [do 6 (destruct j as [|j]; [reflexivity|]);
                             by destruct j|]).
  simpl. do 6 (destruct j as [|j]; [by destruct i|]). reflexivity.
Qed.

Lemma init_stores_symmetric_witness :
  exists C S : mat,
    attr_C m_sample = Some C /\ attr_S m_sample = Some S /\
    symmetric C /\ symmetric S.
Proof.
  apply (init_stores_symmetric J_iso K_iso (blank LinearElasticIsotropic)
           m_sample (Some 3) (Some 0) None None).
  - apply J_iso_symmetric.
  - apply K_iso_symmetric.
  - vm_compute. reflexivity.
Defined.

(** ** The plane-stress stiffness of a constructed instance *)

Lemma compute_C_plane_stress_Raise (self : obj) (E : Qc) :
  attr_E self = Some E -> attr_nu self = Some 1 ->
  compute_C_plane_stress self = (Raise ZeroDivisionError, self).
Proof.
  intros HE Hnu. unfold compute_C_plane_stress. unfold_method.
  rewrite HE, Hnu.
  rewrite (py_div_Raise E (1 - 1 ^ 2)) by (simpl; ring). reflexivity.
Qed.

(** X14. On a successfully constructed instance, [compute_C_plane_stress]
    returns a matrix unless the stored [nu] is [1], in which case it
    raises [ZeroDivisionError]; on an object whose [E] or [nu] has not
    been assigned it raises [AttributeError]. It never assigns to
    [self]. *)
Theorem compute_C_plane_stress_outcome (J K : mat) :
  (forall m : obj,
     constructed J K m ->
     exists E nu : Qc,
       attr_E m = Some E /\ attr_nu m = Some nu /\
       (nu <> 1 ->
        exists C_plane_stress : mat,
          compute_C_plane_stress m = (Ok C_plane_stress, m)) /\
       (nu = 1 -> compute_C_plane_stress m = (Raise ZeroDivisionError, m))) /\
  (forall self : obj,
     attr_E self = None \/ attr_nu self = None ->
     compute_C_plane_stress self = (Raise AttributeError, self)).
Proof.
  split.
  - intros m Hm.
    apply constructed_consistent in Hm
      as (E & nu & kappa & mu & HE & Hnu & _ & _ & _ & Hdiv & _).
    apply py_div_inv in Hdiv as [Hden _].
    apply Qcmult_neq_0_inv in Hden as [_ Hden]. apply one_plus_nu in Hden.
    exists E, nu. split; [exact HE|]. split; [exact Hnu|]. split.
    + intros H1. eexists. by apply (compute_C_plane_stress_Ok m E nu).
    + intros ->. by apply (compute_C_plane_stress_Raise m E).
  - intros self HN. unfold compute_C_plane_stress. unfold_method.
    destruct (attr_E self) as [E|]; [|reflexivity].
    destruct HN as [? | ->]; [discriminate | reflexivity].
Qed.

Lemma compute_C_plane_stress_outcome_witness :
  (exists C_plane_stress : mat,
     compute_C_plane_stress m_sample = (Ok C_plane_stress, m_sample)) /\
  compute_C_plane_stress
    (snd (__init__ J_iso K_iso (Some 3) (Some 1) None None
            (blank LinearElasticIsotropic)))
  = (Raise ZeroDivisionError,
     snd (__init__ J_iso K_iso (Some 3) (Some 1) None None
            (blank LinearElasticIsotropic))) /\
  compute_C_plane_stress (blank LinearElasticIsotropic)
  = (Raise AttributeError, blank LinearElasticIsotropic).
Proof.
  destruct (compute_C_plane_stress_outcome J_iso K_iso) as [Hbuilt Hblank].
  split; [|split].
  - destruct (Hbuilt m_sample m_sample_constructed)
      as (E & nu & HE & Hnu & Hok & _).
    apply Hok. intros ->. vm_compute in Hnu. discriminate Hnu.
  - destruct (Hbuilt (snd (__init__ J_iso K_iso (Some 3) (Some 1) None None
                             (blank LinearElasticIsotropic))))
      as (E & nu & HE & Hnu & _ & Hraise).
    + exists (blank LinearElasticIsotropic), (Some 3), (Some 1), None, None.
      vm_compute. reflexivity.
    + apply Hraise. vm_compute in Hnu. by injection Hnu as <-.
  - apply Hblank. by left.
Defined.

(** ** Signs of the moduli *)

Lemma Qcdiv_pos (a b : Qc) : 0 < a -> 0 < b -> 0 < a / b.
Proof. intros Ha Hb. unfold Qcdiv. apply Qcmult_pos_pos; [exact Ha | by apply Qcinv_pos]. Qed.

Lemma Qclt_of_sub_pos (x y : Qc) : 0 < y - x -> x < y.
Proof.
  intros H. apply (Qcplus_lt_mono_r x y (- x)).
  replace (x + - x) with 0 by ring. by replace (y + - x) with (y - x) by ring.
Qed.


Lemma Qcpos_neq_0 (x : Qc) : 0 < x -> x <> 0.
Proof. intros H. apply not_eq_sym. by apply Qclt_not_eq. Qed.

Lemma three_kappa_plus_mu_pos (kappa mu : Qc) :
  0 < kappa -> 0 < mu -> 0 < 3 * kappa + mu.
Proof.
  intros Hk Hm. apply Qcplus_pos_pos; [|exact Hm].
  apply Qcmult_pos_pos; [reflexivity | exact Hk].
Qed.

(** X15. From a positive bulk modulus and a positive shear modulus the
    constructor derives a positive Young modulus and a Poisson ratio
    strictly between [-1] and [1/2]. *)
Theorem init_kappa_mu_admissible
    (J K : mat) (self0 : obj) (kappa mu : Qc) :
  0 < kappa -> 0 < mu ->
  exists (m : obj) (E nu : Qc),
    __init__ J K None None (Some kappa) (Some mu) self0 = (Ok tt, m) /\
    attr_E m = Some E /\ attr_nu m = Some nu /\
    0 < E /\ -1 < nu /\ nu < 1 / 2.
Proof.
  intros Hk Hm.
  pose proof (three_kappa_plus_mu_pos kappa mu Hk Hm) as Hs.
  pose proof (Qcpos_neq_0 _ Hs) as Hs0.
  eexists _, _, _. split.
  { apply init_kappa_mu_Ok; [by left | by apply Qcpos_neq_0 .. | exact Hs0]. }
  split; [reflexivity|]. split; [reflexivity|]. split; [|split].
  - apply Qcdiv_pos; [|exact Hs].
    apply Qcmult_pos_pos; [|exact Hm]. apply Qcmult_pos_pos; [reflexivity | exact Hk].
  - apply Qclt_of_sub_pos.
    assert (Heq : (3 * kappa - 2 * mu) / (2 * (3 * kappa + mu)) - -1
                  = 9 * kappa / (2 * (3 * kappa + mu))) by (field; solve_neq_0).
    rewrite Heq. apply Qcdiv_pos.
    + apply Qcmult_pos_pos; [reflexivity | exact Hk].
    + apply Qcmult_pos_pos; [reflexivity | exact Hs].
  - apply Qclt_of_sub_pos.
    assert (Heq : 1 / 2 - (3 * kappa - 2 * mu) / (2 * (3 * kappa + mu))
                  = 3 * mu / (2 * (3 * kappa + mu))) by (field; solve_neq_0).
    rewrite Heq. apply Qcdiv_pos.
    + apply Qcmult_pos_pos; [reflexivity | exact Hm].
    + apply Qcmult_pos_pos; [reflexivity | exact Hs].
Qed.

Lemma init_kappa_mu_admissible_witness :
  exists (m : obj) (E nu : Qc),
    __init__ J_iso K_iso None None (Some 1) (Some (3 / 2))
      (blank LinearElasticIsotropic) = (Ok tt, m) /\
    attr_E m = Some E /\ attr_nu m = Some nu /\
    0 < E /\ -1 < nu /\ nu < 1 / 2.
Proof.
  apply init_kappa_mu_admissible; reflexivity.
Defined.



(** ** The plane sub-matrix *)

(** X17. On an instance whose [C] is a [d] x [d] array, [d] at least 4,
    [get_C_plane] returns the 3 x 3 array of the entries of [C] in rows
    and columns 0, 1 and 3, and leaves [self] as it is; on an object
    whose [C] has not been assigned it raises [AttributeError]. *)
Theorem get_C_plane_entries (d : nat) (self : obj) :
  (forall C : mat,
     attr_C self = Some C -> mat_shape d d C -> (4 <= d)%nat ->
     exists c00 c01 c03 c10 c11 c13 c30 c31 c33 : Qc,
       entry C 0 0 = Some c00 /\ entry C 0 1 = Some c01 /\ entry C 0 3 = Some c03 /\
       entry C 1 0 = Some c10 /\ entry C 1 1 = Some c11 /\ entry C 1 3 = Some c13 /\
       entry C 3 0 = Some c30 /\ entry C 3 1 = Some c31 /\ entry C 3 3 = Some c33 /\
       get_C_plane self
       = Some (Ok [[c00; c01; c03]; [c10; c11; c13]; [c30; c31; c33]], self)) /\
  (attr_C self = None -> get_C_plane self = Some (Raise AttributeError, self)).
Proof.
  split.
  - intros C HC [Hlen Hrows] Hd.
    destruct C as [|r0 [|r1 [|r2 [|r3 C']]]]; simpl in Hlen; try lia.
    rewrite !Forall_cons in Hrows. destruct Hrows as (H0 & H1 & _ & H3 & _).
    destruct r0 as [|a0 [|a1 [|a2 [|a3 r0]]]]; simpl in H0; try lia.
    destruct r1 as [|b0 [|b1 [|b2 [|b3 r1]]]]; simpl in H1; try lia.
    destruct r3 as [|e0 [|e1 [|e2 [|e3 r3]]]]; simpl in H3; try lia.
    exists a0, a1, a3, b0, b1, b3, e0, e1, e3.
    do 9 (split; [reflexivity|]).
    unfold get_C_plane, getattr. rewrite HC. reflexivity.
  - intros HC. unfold get_C_plane, getattr. by rewrite HC.
Qed.

Lemma get_C_plane_entries_witness :
  (exists c00 c01 c03 c10 c11 c13 c30 c31 c33 : Qc,
     entry (3 * 1 .* J_iso .+ 2 * (3 / 2) .* K_iso) 0 0 = Some c00 /\
     entry (3 * 1 .* J_iso .+ 2 * (3 / 2) .* K_iso) 0 1 = Some c01 /\
     entry (3 * 1 .* J_iso .+ 2 * (3 / 2) .* K_iso) 0 3 = Some c03 /\
     entry (3 * 1 .* J_iso .+ 2 * (3 / 2) .* K_iso) 1 0 = Some c10 /\
     entry (3 * 1 .* J_iso .+ 2 * (3 / 2) .* K_iso) 1 1 = Some c11 /\
     entry (3 * 1 .* J_iso .+ 2 * (3 / 2) .* K_iso) 1 3 = Some c13 /\
     entry (3 * 1 .* J_iso .+ 2 * (3 / 2) .* K_iso) 3 0 = Some c30 /\
     entry (3 * 1 .* J_iso .+ 2 * (3 / 2) .* K_iso) 3 1 = Some c31 /\
     entry (3 * 1 .* J_iso .+ 2 * (3 / 2) .* K_iso) 3 3 = Some c33 /\
     get_C_plane m_sample
     = Some (Ok [[c00; c01; c03]; [c10; c11; c13]; [c30; c31; c33]], m_sample)) /\
  get_C_plane (blank LinearElasticIsotropic)
  = Some (Raise AttributeError, blank LinearElasticIsotropic).
Proof.
  split.
  - apply (proj1 (get_C_plane_entries 6 m_sample)).
    + vm_compute. reflexivity.
    + apply stiffness_shape; [apply J_iso_shape | apply K_iso_shape].
    + repeat constructor.
  - by apply (proj2 (get_C_plane_entries 6 (blank LinearElasticIsotropic))).
Defined.

(** ** The constructor and its own output *)

(** X18. A lone [E], or a lone [nu], passed together with [(kappa, mu)]
    is discarded: the call does what the call with [(kappa, mu)] alone
    does, and the [E] and [nu] it stores are the ones computed from
    [kappa] and [mu]. *)
Theorem init_discards_lone_E_or_nu
    (J K : mat) (self0 : obj) (E nu : option Qc) (kappa mu : Qc) :
  E = None \/ nu = None ->
  kappa <> 0 -> mu <> 0 -> 3 * kappa + mu <> 0 ->
  __init__ J K E nu (Some kappa) (Some mu) self0
  = __init__ J K None None (Some kappa) (Some mu) self0 /\
  exists m : obj,
    __init__ J K E nu (Some kappa) (Some mu) self0 = (Ok tt, m) /\
    attr_E m = Some (9 * kappa * mu / (3 * kappa + mu)) /\
    attr_nu m = Some ((3 * kappa - 2 * mu) / (2 * (3 * kappa + mu))).
Proof.
  intros HN Hk Hm Hs. split; [by apply init_kappa_mu_only|].
  eexists. split; [by apply init_kappa_mu_Ok|]. split; reflexivity.
Qed.

Lemma init_discards_lone_E_or_nu_witness :
  __init__ J_iso K_iso (Some 9) None (Some 1) (Some (3 / 2))
    (blank LinearElasticIsotropic)
  = __init__ J_iso K_iso None None (Some 1) (Some (3 / 2))
      (blank LinearElasticIsotropic) /\
  exists m : obj,
    __init__ J_iso K_iso (Some 9) None (Some 1) (Some (3 / 2))
      (blank LinearElasticIsotropic) = (Ok tt, m) /\
    attr_E m = Some (9 * 1 * (3 / 2) / (3 * 1 + 3 / 2)) /\
    attr_nu m = Some ((3 * 1 - 2 * (3 / 2)) / (2 * (3 * 1 + 3 / 2))).
Proof.
  apply init_discards_lone_E_or_nu; [by right | discriminate ..].
Defined.

Lemma init_Ok_built (J K : mat) (self0 m : obj) (E0 nu0 kappa0 mu0 : option Qc) :
  __init__ J K E0 nu0 kappa0 mu0 self0 = (Ok tt, m) ->
  exists E nu kappa mu : Qc,
    m = built J K self0 E nu kappa mu /\
    E <> 0 /\ nu <> 1 / 2 /\ nu <> -1 /\
    kappa <> 0 /\ mu <> 0 /\ 3 * kappa + mu <> 0 /\
    kappa = E / (3 * (1 - 2 * nu)) /\ mu = E / (2 * (1 + nu)) /\
    E = 9 * kappa * mu / (3 * kappa + mu) /\
    nu = (3 * kappa - 2 * mu) / (2 * (3 * kappa + mu)).
Proof.
  intros Hinit.
  assert (Hm : constructed J K m) by (red; eauto 10).
  apply constructed_consistent in Hm
    as (E & nu & kappa & mu & HE & Hnu & Hk & Hmu & H1 & H2 & H3 & H4).
  apply init_Ok_inv in Hinit
    as (E' & nu' & kappa' & mu' & -> & Hk0 & Hm0 & _).
  simpl in HE, Hnu, Hk, Hmu.
  injection HE as ->. injection Hnu as ->. injection Hk as ->. injection Hmu as ->.
  apply py_div_inv in H1 as [Hd1 ->], H2 as [Hd2 Hmu'], H3 as [Hd3 HE'], H4 as [_ Hnu'].
  apply Qcmult_neq_0_inv in Hd1 as [_ Hd1], Hd2 as [_ Hd2].
  exists E, nu, (E / (3 * (1 - 2 * nu))), mu.
  split; [reflexivity|].
  split. { intros ->. apply Hk0. apply Qcdiv_0_l. }
  split; [by apply one_minus_two_nu|]. split; [by apply one_plus_nu|].
  repeat split; assumption.
Qed.

(** X19. The constructor reproduces its own output: run again with the
    [(E, nu)] that a constructed instance stores, or with the
    [(kappa, mu)] it stores, on an object of the same class, it succeeds
    and leaves an object with the same six attributes. *)
Theorem init_reproduces_instance
    (J K : mat) (self0 m : obj) (E0 nu0 kappa0 mu0 : option Qc) :
  __init__ J K E0 nu0 kappa0 mu0 self0 = (Ok tt, m) ->
  forall self1 : obj,
    cls self1 = cls m ->
    __init__ J K (attr_E m) (attr_nu m) None None self1 = (Ok tt, m) /\
    __init__ J K None None (attr_kappa m) (attr_mu m) self1 = (Ok tt, m).
Proof.
  intros Hinit self1 Hcls.
  apply init_Ok_built in Hinit
    as (E & nu & kappa & mu & -> & HE & H1 & H2 & Hk & Hm & Hs & Hkappa & Hmu & HE' & Hnu').
  simpl in *. split.
  - rewrite init_E_nu_Ok by done. rewrite <- Hkappa, <- Hmu.
    unfold built. by rewrite Hcls.
  - rewrite init_kappa_mu_Ok by auto. rewrite <- HE', <- Hnu'.
    unfold built. by rewrite Hcls.
Qed.

Lemma init_reproduces_instance_witness :
  __init__ J_iso K_iso (attr_E m_sample) (attr_nu m_sample) None None
    (blank LinearElasticIsotropic) = (Ok tt, m_sample) /\
  __init__ J_iso K_iso None None (attr_kappa m_sample) (attr_mu m_sample)
    (blank LinearElasticIsotropic) = (Ok tt, m_sample).
Proof.
  apply (init_reproduces_instance J_iso K_iso (blank LinearElasticIsotropic)
           m_sample (Some 3) (Some 0) None None).
  - vm_compute. reflexivity.
  - reflexivity.
Defined.

(** X20. On every constructed instance of the base class, the stored
    stiffness is the one that [compute_C] returns for the stored [E] and
    [nu], whichever pair of moduli the instance was built from. *)
Theorem stored_C_is_compute_C
    (J K : mat) (self0 m : obj) (E0 nu0 kappa0 mu0 : option Qc) :
  cls self0 = LinearElasticIsotropic ->
  __init__ J K E0 nu0 kappa0 mu0 self0 = (Ok tt, m) ->
  exists (E nu : Qc) (C : mat),
    attr_E m = Some E /\ attr_nu m = Some nu /\ attr_C m = Some C /\
    compute_C J K E nu m = (Ok C, m).
Proof.
  intros Hcls Hinit.
  apply init_Ok_built in Hinit
    as (E & nu & kappa & mu & -> & HE & H1 & H2 & _ & _ & _ & Hkappa & Hmu & _).
  exists E, nu, (3 * kappa .* J .+ 2 * mu .* K).
  do 3 (split; [reflexivity|]).
  rewrite compute_C_of_Lame. simpl. rewrite Hcls, Lame_base by done.
  by rewrite kappa_via_Lame, mu_via_Lame, <- Hkappa, <- Hmu.
Qed.

Lemma stored_C_is_compute_C_witness :
  exists (E nu : Qc) (C : mat),
    attr_E m_sample = Some E /\ attr_nu m_sample = Some nu /\
    attr_C m_sample = Some C /\
    compute_C J_iso K_iso E nu m_sample = (Ok C, m_sample).
Proof.
  apply (stored_C_is_compute_C J_iso K_iso (blank LinearElasticIsotropic)
           m_sample (Some 3) (Some 0) None None).
  - reflexivity.
  - vm_compute. reflexivity.
Defined.
